(** * tabungdika: the ledger server (src/server.ts)

    A shallow embedding of the Express handlers of [server.ts] and of the
    three SQLite tables they read and write, followed by the properties of
    the ledger: the target-linking rule, the statistics, the error paths and
    the frames of the updates.

    Modelling choices.
    - A table is the list of its rows in rowid order, with the AUTOINCREMENT
      counter next to it.  Every statement of the source is one function on
      the database value; a handler threads the database through its
      statements in the order of the source.
    - Numbers are integers ([Z]): amounts are whole currency units.  The
      REAL arithmetic of SQLite and of JavaScript is exact on them as long
      as the magnitudes stay within 2^53; the properties that add amounts
      carry this bound as a hypothesis ([Domain.exact_amounts] and the
      like).
    - A request field is a JSON scalar: absent ([JUndefined]), [JNull], an
      integer number or a string.  The browser client of the repository
      sends the amount and the target id as strings; the column affinities
      of the schema convert them.  Booleans, arrays, objects and numbers
      with a fraction are outside the model.
    - The conversion of a text to a number is modelled for the decimal
      text of an integer, as [String(n)] writes it; the engine also reads
      numerals with a fraction, an exponent or blanks around them.  The
      properties that depend on such a conversion are stated for fields
      that are [Domain.plain]: absent, null, an integer within 2^53 as a
      number or as its decimal text, or the empty text.
    - A statement that throws (a violated constraint) aborts the handler;
      Express answers with status 500 and the database keeps the value it
      had before the statement.
    - The enforcement of FOREIGN KEY clauses is a switch of the connection
      ([foreign_keys]); the properties are proved for both positions. *)

From Stdlib Require Import ZArith List String Ascii Bool Lia.
From Stdlib Require Import DecimalString.
From Stdlib Require Import Sorted Permutation.
From Stdlib Require OrderedTypeEx DecimalPos.
Import ListNotations.

Local Open Scope string_scope.
Local Open Scope Z_scope.

(** ** Values *)

Module Js.

(** A JSON scalar as a handler reads it from [req.body], [req.query] or
    [req.params]. *)
Inductive jsval : Type :=
| JUndefined
| JNull
| JNum (n : Z)
| JStr (s : string).

(** [if (v)] *)
Definition truthy (v : jsval) : bool :=
  match v with
  | JUndefined => false
  | JNull => false
  | JNum n => negb (n =? 0)
  | JStr s => negb (s =? EmptyString)%string
  end.

(** [v === 'lit'] *)
Definition strict_eq_str (v : jsval) (lit : string) : bool :=
  match v with
  | JStr s => (s =? lit)%string
  | _ => false
  end.

(** [v !== undefined] *)
Definition is_defined (v : jsval) : bool :=
  match v with
  | JUndefined => false
  | _ => true
  end.

(** [String(n)] for an integer. *)
Definition String_of (n : Z) : string := NilZero.string_of_int (Z.to_int n).

(** [s.padStart(2, '0')] *)
Definition padStart2 (s : string) : string :=
  match s with
  | EmptyString => "00"
  | String c EmptyString => String "0" (String c EmptyString)
  | _ => s
  end.

(** What the handlers read of [new Date()]. *)
Record Date : Type := mkDate {
  getFullYear : Z;
  getMonth : Z;  (* 0 .. 11 *)
  getDate : Z    (* 1 .. 31; no handler reads it *)
}.

End Js.

Module Sqlite.

Import Js.

(** A stored, non-NULL value of the integer fragment; NULL is [None]. *)
Inductive sqlval : Type :=
| SInt (n : Z)
| SText (s : string).

Inductive exn : Type :=
| TypeError              (* the binder refuses a value; none of the modelled
                            scalars is refused *)
| ConstraintNotNull
| ConstraintCheck
| ConstraintUnique
| ConstraintForeignKey.

Inductive result (A : Type) : Type :=
| Ok (a : A)
| Throw (e : exn).
Arguments Ok {A} a.
Arguments Throw {A} e.

Definition rbind {A B} (r : result A) (k : A -> result B) : result B :=
  match r with
  | Ok a => k a
  | Throw e => Throw e
  end.

Notation "x <- r ;; k" := (rbind r (fun x => k))
  (at level 61, r at next level, right associativity).

(** The parameter binder of the driver: numbers and strings are bound as
    they are, null and [undefined] are bound as NULL. *)
Definition bind (v : jsval) : result (option sqlval) :=
  match v with
  | JUndefined => Ok None
  | JNull => Ok None
  | JNum n => Ok (Some (SInt n))
  | JStr s => Ok (Some (SText s))
  end.

Definition digit_of (c : ascii) : option Z :=
  let n := Z.of_nat (nat_of_ascii c) in
  if (48 <=? n) && (n <=? 57) then Some (n - 48) else None.

(** Reads the digits at the head of [s]: their value on top of [acc], how
    many there were, and the rest. *)
Fixpoint read_digits (acc : Z) (s : string) : Z * nat * string :=
  match s with
  | EmptyString => (acc, O, s)
  | String c r =>
      match digit_of c with
      | Some d => let '(v, k, rest) := read_digits (10 * acc + d) r in (v, S k, rest)
      | None => (acc, O, s)
      end
  end.

(** Sign, then digits: the value, the number of digits and the rest. *)
Definition read_int (s : string) : Z * nat * string :=
  match s with
  | String "-" r => let '(v, k, rest) := read_digits 0 r in (- v, k, rest)
  | String "+" r => read_digits 0 r
  | _ => read_digits 0 s
  end.

(** The text is a well-formed integer literal.  The engine also takes
    numerals with a fraction, an exponent or blanks around them for
    numbers; the model leaves those as texts, and the properties that
    depend on the conversion are stated for the decimal text of an integer
    ([Domain.plain], [Domain.carries]). *)
Definition int_literal (s : string) : option Z :=
  match read_int s with
  | (v, S _, EmptyString) => Some v
  | _ => None
  end.

(** The number a text stands for in arithmetic: its leading integer
    numeral, or 0. *)
Definition numeric_prefix (s : string) : Z :=
  match read_int s with
  | (v, S _, _) => v
  | _ => 0
  end.

(** INTEGER, REAL and NUMERIC (DATE) affinity: a text that is a
    well-formed integer literal is stored as the number, any other text as
    it is. *)
Definition numeric_affinity (v : sqlval) : sqlval :=
  match v with
  | SInt n => SInt n
  | SText s => match int_literal s with Some n => SInt n | None => SText s end
  end.

(** TEXT affinity: a number, which the driver binds as a REAL, is stored
    as the text of that REAL: 7 becomes '7.0'.  (From fifteen digits on
    the engine writes an exponent; the properties about TEXT columns are
    stated for fields that are not numbers, [Domain.text_field].) *)
Definition text_affinity (v : sqlval) : string :=
  match v with
  | SInt n => (String_of n ++ ".0")%string
  | SText s => s
  end.

(** The operand of [+] and of SUM: a whole number.  The REAL sums of the
    engine are these sums as long as the magnitudes stay within 2^53
    ([Domain.exact_amounts], [Domain.exact_savings]). *)
Definition to_num (v : sqlval) : Z :=
  match v with
  | SInt n => n
  | SText s => numeric_prefix s
  end.

(** [a = b] on non-NULL values: numbers and texts never compare equal. *)
Definition sql_eq (a b : sqlval) : bool :=
  match a, b with
  | SInt x, SInt y => x =? y
  | SText x, SText y => (x =? y)%string
  | _, _ => false
  end.

(** [a <= b] in the sort order of the storage classes: every number is
    below every text, texts compare bytewise. *)
Definition sql_le (a b : sqlval) : bool :=
  match a, b with
  | SInt x, SInt y => x <=? y
  | SInt _, SText _ => true
  | SText _, SInt _ => false
  | SText x, SText y => String.leb x y
  end.

(** [a >= b] *)
Definition sql_ge (a b : sqlval) : bool := sql_le b a.

(** A comparison with a NULL operand is not true. *)
Definition opt_test (f : sqlval -> bool) (o : option sqlval) : bool :=
  match o with
  | Some v => f v
  | None => false
  end.

(** NOT NULL *)
Definition not_null {A} (o : option A) : result A :=
  match o with
  | Some a => Ok a
  | None => Throw ConstraintNotNull
  end.

(** SUM over the non-NULL values of a column: NULL when there is none. *)
Definition sql_sum (vs : list sqlval) : option Z :=
  match vs with
  | [] => None
  | _ => Some (fold_right (fun v acc => to_num v + acc) 0 vs)
  end.

(** ORDER BY key DESC: the rows are inserted from the scan (rowid) order
    into the result and rows with equal keys keep their scan order.  The
    engine leaves the order of equal keys open; this is the choice of the
    model. *)
Section OrderBy.
Context {R : Type} (le : R -> R -> bool).

Fixpoint insert_desc (r : R) (sorted : list R) : list R :=
  match sorted with
  | [] => [r]
  | x :: rest => if le x r then r :: sorted else x :: insert_desc r rest
  end.

Definition order_by_desc (rows : list R) : list R :=
  fold_right insert_desc [] rows.
End OrderBy.

(** [a + b]: NULL when an operand is NULL. *)
Definition sql_add (a b : option sqlval) : option sqlval :=
  match a, b with
  | Some x, Some y => Some (SInt (to_num x + to_num y))
  | _, _ => None
  end.

(** [col = ?] for a column of INTEGER affinity holding [col]: the affinity
    of the column is applied to the parameter before the comparison. *)
Definition num_col_eq (col : sqlval) (param : option sqlval) : bool :=
  opt_test (fun v => sql_eq col (numeric_affinity v)) param.

(** [col >= ?] for a column of NUMERIC affinity. *)
Definition num_col_ge (col : sqlval) (param : option sqlval) : bool :=
  opt_test (fun v => sql_ge col (numeric_affinity v)) param.

(** [col = ?] for a column of TEXT affinity. *)
Definition text_col_eq (col : string) (param : option sqlval) : bool :=
  opt_test (fun v => (col =? text_affinity v)%string) param.

(** A child key satisfies its FOREIGN KEY clause: enforcement is off, the
    key is NULL, or it is the rowid of a parent row. *)
Definition fk_ok (enforced : bool) (parent_ids : list Z) (child : option sqlval) : bool :=
  negb enforced ||
  match child with
  | None => true
  | Some (SInt n) => existsb (Z.eqb n) parent_ids
  | Some (SText _) => false
  end.

Definition guard (b : bool) (e : exn) : result unit :=
  if b then Ok tt else Throw e.

End Sqlite.

(** ** The schema (server.ts, lines 11-47) *)

Module Schema.

Import Js Sqlite.

(** A row of [users]. *)
Record user : Type := mkUser {
  u_id : Z;
  u_name : string;
  u_email : string;
  u_password : string;
  u_avatar_url : option string;
  u_created_at : string
}.

(** A row of [targets].  [user_id] and [amount] are NOT NULL; the other
    columns of the row may hold NULL. *)
Record target : Type := mkTarget {
  g_id : Z;
  g_user_id : sqlval;
  g_name : string;
  g_amount : sqlval;
  g_saved_amount : option sqlval;
  g_deadline : option sqlval;
  g_description : option string;
  g_status : option string;
  g_created_at : string
}.

(** A row of [transactions]. *)
Record transaction : Type := mkTransaction {
  t_id : Z;
  t_user_id : sqlval;
  t_type : string;
  t_category : string;
  t_amount : sqlval;
  t_description : option string;
  t_date : sqlval;
  t_target_id : option sqlval;
  t_created_at : string
}.

(** The database file: the three tables, each with the last rowid its
    AUTOINCREMENT key has handed out, and the foreign-key switch. *)
Record Db : Type := mkDb {
  users : list user;
  users_seq : Z;
  targets : list target;
  targets_seq : Z;
  transactions : list transaction;
  transactions_seq : Z;
  foreign_keys : bool
}.

(** The file after the CREATE TABLE IF NOT EXISTS statements on a fresh
    database. *)
Definition empty_db (fk : bool) : Db := mkDb [] 0 [] 0 [] 0 fk.

Definition with_users (db : Db) (us : list user) (seq : Z) : Db :=
  mkDb us seq (targets db) (targets_seq db)
       (transactions db) (transactions_seq db) (foreign_keys db).

Definition with_targets (db : Db) (gs : list target) (seq : Z) : Db :=
  mkDb (users db) (users_seq db) gs seq
       (transactions db) (transactions_seq db) (foreign_keys db).

Definition with_transactions (db : Db) (ts : list transaction) (seq : Z) : Db :=
  mkDb (users db) (users_seq db) (targets db) (targets_seq db)
       ts seq (foreign_keys db).

Definition set_saved_amount (g : target) (v : option sqlval) : target :=
  mkTarget (g_id g) (g_user_id g) (g_name g) (g_amount g) v
           (g_deadline g) (g_description g) (g_status g) (g_created_at g).

Definition set_status (g : target) (v : option string) : target :=
  mkTarget (g_id g) (g_user_id g) (g_name g) (g_amount g) (g_saved_amount g)
           (g_deadline g) (g_description g) v (g_created_at g).

End Schema.

(** ** The statements and the handlers (server.ts, lines 56-149) *)

Module Server.

Import Js Sqlite Schema.

Record stats : Type := mkStats {
  balance : Z;
  monthlyIncome : Z;
  monthlyExpense : Z;
  totalIncome : Z;
  totalExpense : Z
}.

(** The JSON documents the handlers send. *)
Inductive body : Type :=
| BRegistered (id : Z) (name email : jsval)   (* { id, name, email } *)
| BUser (u : user)
| BError (error : string)                     (* { error } *)
| BId (id : Z)                                (* { id } *)
| BSuccess                                    (* { success: true } *)
| BTransactions (rows : list transaction)
| BTargets (rows : list target)
| BStats (s : stats).

(** What the client receives: the document with its status, or the answer
    of Express to an exception that left the handler (status 500). *)
Inductive response : Type :=
| Json (status : Z) (b : body)
| Uncaught (e : exn).

(** *** Statements *)

(** INSERT INTO users (name, email, password) VALUES (?, ?, ?) *)
Definition insert_user (db : Db) (name email password : jsval) (now : string)
  : result (Db * Z) :=
  b_name <- bind name ;;
  b_email <- bind email ;;
  b_password <- bind password ;;
  c_name <- not_null (option_map text_affinity b_name) ;;
  c_email <- not_null (option_map text_affinity b_email) ;;
  c_password <- not_null (option_map text_affinity b_password) ;;
  _ <- guard (negb (existsb (fun u => (u_email u =? c_email)%string) (users db)))
             ConstraintUnique ;;
  let id := users_seq db + 1 in
  Ok (with_users db (users db ++ [mkUser id c_name c_email c_password None now]) id, id).

(** SELECT * FROM users WHERE email = ? AND password = ?, first row *)
Definition select_user (db : Db) (email password : jsval) : result (option user) :=
  b_email <- bind email ;;
  b_password <- bind password ;;
  Ok (find (fun u => text_col_eq (u_email u) b_email &&
                     text_col_eq (u_password u) b_password) (users db)).

(** INSERT INTO transactions (user_id, type, category, amount, description,
    date, target_id) VALUES (?, ?, ?, ?, ?, ?, ?) *)
Definition insert_transaction (db : Db)
  (userId type category amount description date targetId : jsval) (now : string)
  : result (Db * Z) :=
  b_user <- bind userId ;;
  b_type <- bind type ;;
  b_category <- bind category ;;
  b_amount <- bind amount ;;
  b_description <- bind description ;;
  b_date <- bind date ;;
  b_target <- bind targetId ;;
  c_user <- not_null (option_map numeric_affinity b_user) ;;
  c_type <- not_null (option_map text_affinity b_type) ;;
  c_category <- not_null (option_map text_affinity b_category) ;;
  c_amount <- not_null (option_map numeric_affinity b_amount) ;;
  c_date <- not_null (option_map numeric_affinity b_date) ;;
  let c_description := option_map text_affinity b_description in
  let c_target := option_map numeric_affinity b_target in
  _ <- guard ((c_type =? "income")%string || (c_type =? "expense")%string)
             ConstraintCheck ;;
  _ <- guard (fk_ok (foreign_keys db) (map u_id (users db)) (Some c_user))
             ConstraintForeignKey ;;
  _ <- guard (fk_ok (foreign_keys db) (map g_id (targets db)) c_target)
             ConstraintForeignKey ;;
  let id := transactions_seq db + 1 in
  Ok (with_transactions db
        (transactions db ++
           [mkTransaction id c_user c_type c_category c_amount c_description
                          c_date c_target now]) id, id).

(** UPDATE targets SET saved_amount = saved_amount + ? WHERE id = ? *)
Definition update_target_add (db : Db) (amount targetId : jsval) : result Db :=
  b_amount <- bind amount ;;
  b_target <- bind targetId ;;
  Ok (with_targets db
        (map (fun g => if num_col_eq (SInt (g_id g)) b_target
                       then set_saved_amount g (sql_add (g_saved_amount g) b_amount)
                       else g) (targets db))
        (targets_seq db)).

(** DELETE FROM transactions WHERE id = ? *)
Definition delete_transaction_row (db : Db) (id : jsval) : result Db :=
  b_id <- bind id ;;
  Ok (with_transactions db
        (filter (fun t => negb (num_col_eq (SInt (t_id t)) b_id)) (transactions db))
        (transactions_seq db)).

(** INSERT INTO targets (user_id, name, amount, deadline, description)
    VALUES (?, ?, ?, ?, ?); saved_amount and status take their defaults. *)
Definition insert_target (db : Db) (userId name amount deadline description : jsval)
  (now : string) : result (Db * Z) :=
  b_user <- bind userId ;;
  b_name <- bind name ;;
  b_amount <- bind amount ;;
  b_deadline <- bind deadline ;;
  b_description <- bind description ;;
  c_user <- not_null (option_map numeric_affinity b_user) ;;
  c_name <- not_null (option_map text_affinity b_name) ;;
  c_amount <- not_null (option_map numeric_affinity b_amount) ;;
  _ <- guard (fk_ok (foreign_keys db) (map u_id (users db)) (Some c_user))
             ConstraintForeignKey ;;
  let id := targets_seq db + 1 in
  Ok (with_targets db
        (targets db ++
           [mkTarget id c_user c_name c_amount (Some (SInt 0))
                     (option_map numeric_affinity b_deadline)
                     (option_map text_affinity b_description)
                     (Some "active") now]) id, id).

(** UPDATE targets SET saved_amount = ? WHERE id = ? *)
Definition update_target_saved (db : Db) (saved_amount id : jsval) : result Db :=
  b_saved <- bind saved_amount ;;
  b_id <- bind id ;;
  Ok (with_targets db
        (map (fun g => if num_col_eq (SInt (g_id g)) b_id
                       then set_saved_amount g (option_map numeric_affinity b_saved)
                       else g) (targets db))
        (targets_seq db)).

(** UPDATE targets SET status = ? WHERE id = ? *)
Definition update_target_status (db : Db) (status id : jsval) : result Db :=
  b_status <- bind status ;;
  b_id <- bind id ;;
  Ok (with_targets db
        (map (fun g => if num_col_eq (SInt (g_id g)) b_id
                       then set_status g (option_map text_affinity b_status)
                       else g) (targets db))
        (targets_seq db)).

(** SELECT * FROM transactions WHERE user_id = ? ORDER BY date DESC *)
Definition select_transactions (db : Db) (userId : jsval) : result (list transaction) :=
  b_user <- bind userId ;;
  Ok (order_by_desc (fun a b => sql_le (t_date a) (t_date b))
        (filter (fun t => num_col_eq (t_user_id t) b_user) (transactions db))).

(** SELECT * FROM targets WHERE user_id = ? ORDER BY created_at DESC *)
Definition select_targets (db : Db) (userId : jsval) : result (list target) :=
  b_user <- bind userId ;;
  Ok (order_by_desc (fun a b => String.leb (g_created_at a) (g_created_at b))
        (filter (fun g => num_col_eq (g_user_id g) b_user) (targets db))).

(** SELECT SUM(amount) as total FROM transactions
    WHERE user_id = ? AND type = 'ty' *)
Definition select_total (db : Db) (ty : string) (userId : jsval) : result (option Z) :=
  b_user <- bind userId ;;
  Ok (sql_sum (map t_amount
        (filter (fun t => num_col_eq (t_user_id t) b_user && (t_type t =? ty)%string)
                (transactions db)))).

(** SELECT SUM(amount) as total FROM transactions
    WHERE user_id = ? AND type = 'ty' AND date >= ? *)
Definition select_total_since (db : Db) (ty : string) (userId since : jsval)
  : result (option Z) :=
  b_user <- bind userId ;;
  b_since <- bind since ;;
  Ok (sql_sum (map t_amount
        (filter (fun t => num_col_eq (t_user_id t) b_user && (t_type t =? ty)%string
                          && num_col_ge (t_date t) b_since)
                (transactions db)))).

(** [total || 0] *)
Definition or_zero (total : option Z) : Z :=
  match total with
  | Some n => n
  | None => 0
  end.

(** *** Handlers *)

(** POST /api/auth/register *)
Definition register (db : Db) (name email password : jsval) (now : string)
  : Db * response :=
  match insert_user db name email password now with
  | Ok (db', id) => (db', Json 200 (BRegistered id name email))
  | Throw _ => (db, Json 400 (BError "Email already exists"))
  end.

(** POST /api/auth/login *)
Definition login (db : Db) (email password : jsval) : Db * response :=
  match select_user db email password with
  | Ok (Some user) => (db, Json 200 (BUser user))
  | Ok None => (db, Json 401 (BError "Invalid credentials"))
  | Throw e => (db, Uncaught e)
  end.

(** GET /api/transactions *)
Definition list_transactions (db : Db) (userId : jsval) : Db * response :=
  match select_transactions db userId with
  | Ok rows => (db, Json 200 (BTransactions rows))
  | Throw e => (db, Uncaught e)
  end.

(** POST /api/transactions *)
Definition create_transaction (db : Db)
  (userId type category amount description date targetId : jsval) (now : string)
  : Db * response :=
  match insert_transaction db userId type category amount description date targetId now with
  | Throw e => (db, Uncaught e)
  | Ok (db1, id) =>
      if strict_eq_str type "income" && truthy targetId then
        match update_target_add db1 amount targetId with
        | Throw e => (db1, Uncaught e)
        | Ok db2 => (db2, Json 200 (BId id))
        end
      else (db1, Json 200 (BId id))
  end.

(** DELETE /api/transactions/:id; the path parameter is a string. *)
Definition delete_transaction (db : Db) (id : string) : Db * response :=
  match delete_transaction_row db (JStr id) with
  | Throw e => (db, Uncaught e)
  | Ok db' => (db', Json 200 BSuccess)
  end.

(** GET /api/targets *)
Definition list_targets (db : Db) (userId : jsval) : Db * response :=
  match select_targets db userId with
  | Ok rows => (db, Json 200 (BTargets rows))
  | Throw e => (db, Uncaught e)
  end.

(** POST /api/targets *)
Definition create_target (db : Db) (userId name amount deadline description : jsval)
  (now : string) : Db * response :=
  match insert_target db userId name amount deadline description now with
  | Throw e => (db, Uncaught e)
  | Ok (db', id) => (db', Json 200 (BId id))
  end.

(** PATCH /api/targets/:id *)
Definition update_target (db : Db) (id : string) (saved_amount status : jsval)
  : Db * response :=
  match (if is_defined saved_amount
         then update_target_saved db saved_amount (JStr id) else Ok db) with
  | Throw e => (db, Uncaught e)
  | Ok db1 =>
      match (if is_defined status
             then update_target_status db1 status (JStr id) else Ok db1) with
      | Throw e => (db1, Uncaught e)
      | Ok db2 => (db2, Json 200 BSuccess)
      end
  end.

(** The template literal of line 134. *)
Definition monthStart (now : Date) : string :=
  (String_of (getFullYear now) ++ "-" ++ padStart2 (String_of (getMonth now + 1))
   ++ "-01")%string.

(** GET /api/stats *)
Definition get_stats (db : Db) (userId : jsval) (now : Date) : Db * response :=
  let monthStart := JStr (monthStart now) in
  match
    (totalIncome <- select_total db "income" userId ;;
     totalExpense <- select_total db "expense" userId ;;
     monthlyIncome <- select_total_since db "income" userId monthStart ;;
     monthlyExpense <- select_total_since db "expense" userId monthStart ;;
     Ok (mkStats (or_zero totalIncome - or_zero totalExpense)
                 (or_zero monthlyIncome) (or_zero monthlyExpense)
                 (or_zero totalIncome) (or_zero totalExpense)))
  with
  | Ok s => (db, Json 200 (BStats s))
  | Throw e => (db, Uncaught e)
  end.

End Server.

(** ** Views of the store used by the properties *)

Module Ledger.

Import Js Sqlite Schema Server.

(** The value a request field is bound to ([None] for NULL). *)
Definition bound (v : jsval) : option sqlval :=
  match bind v with
  | Ok o => o
  | Throw _ => None
  end.

(** The rowid a request field selects in [WHERE id = ?]. *)
Definition row_key (v : jsval) : option Z :=
  match bound v with
  | Some p => match numeric_affinity p with SInt n => Some n | SText _ => None end
  | None => None
  end.

(** The sum of the amounts of the rows that satisfy [p]. *)
Fixpoint total_of (p : transaction -> bool) (ts : list transaction) : Z :=
  match ts with
  | [] => 0
  | t :: rest => (if p t then to_num (t_amount t) else 0) + total_of p rest
  end.

(** The row is an income transaction linked to the target [gid]. *)
Definition linked_income (gid : Z) (t : transaction) : bool :=
  (t_type t =? "income")%string &&
  match t_target_id t with
  | Some (SInt n) => n =? gid
  | _ => false
  end.

(** The sum of the amounts of the income transactions currently present
    that are linked to the target [gid] through target_id. *)
Definition linked_income_sum (db : Db) (gid : Z) : Z :=
  total_of (linked_income gid) (transactions db).

(** The saved_amount of the target [gid]. *)
Definition saved_amount_of (db : Db) (gid : Z) : option (option sqlval) :=
  option_map g_saved_amount (find (fun g => g_id g =? gid) (targets db)).

(** The invariant of the data model: every target holds the sum of its
    linked income. *)
Definition saved_matches_links (db : Db) : Prop :=
  forall g, In g (targets db) ->
    g_saved_amount g = Some (SInt (linked_income_sum db (g_id g))).

(** The row belongs to the user whose key is [u]. *)
Definition tx_of_user (u : sqlval) (t : transaction) : bool := sql_eq (t_user_id t) u.
Definition target_of_user (u : sqlval) (g : target) : bool := sql_eq (g_user_id g) u.

(** The handler answered with a document, no exception left it. *)
Definition answered (r : response) : bool :=
  match r with
  | Json _ _ => true
  | Uncaught _ => false
  end.


(** The key under which the rows of a user are selected by
    [WHERE user_id = ?]. *)
Definition user_key (v : jsval) : option sqlval :=
  option_map numeric_affinity (bound v).

Definition owned (k : option sqlval) (t : transaction) : bool :=
  match k with
  | Some u => tx_of_user u t
  | None => false
  end.

Definition is_type (ty : string) (t : transaction) : bool := (t_type t =? ty)%string.

(** The transaction is dated on or after [since], in the order of the
    store. *)
Definition dated_from (since : string) (t : transaction) : bool :=
  sql_ge (t_date t) (SText since).

(** The transaction is dated on or before [until]. *)
Definition dated_until (until : string) (t : transaction) : bool :=
  sql_le (t_date t) (SText until).

(** The calendar day of [now] in the format of the date column. *)
Definition today (now : Date) : string :=
  (String_of (getFullYear now) ++ "-" ++ padStart2 (String_of (getMonth now + 1))
   ++ "-" ++ padStart2 (String_of (getDate now)))%string.

(** The first day of the month of [now]. *)
Definition first_of_month (now : Date) : Date :=
  mkDate (getFullYear now) (getMonth now) 1.

(** The effect of the linking rule on one row of [targets]: the row whose
    id the request names is credited, whoever owns it. *)
Definition credited (targetId amount : jsval) (g : target) : target :=
  match row_key targetId with
  | Some k => if k =? g_id g
              then set_saved_amount g (sql_add (g_saved_amount g) (bound amount))
              else g
  | None => g
  end.

(** The path parameter [id] names the transaction [t]. *)
Definition has_id (id : string) (t : transaction) : bool :=
  match int_literal id with
  | Some k => k =? t_id t
  | None => false
  end.

(** The path parameter [id] names the target [g]. *)
Definition names_target (id : string) (g : target) : bool :=
  match int_literal id with
  | Some k => k =? g_id g
  | None => false
  end.

(** The row of [targets] after PATCH /api/targets/:id as the contract of
    a partial update describes it: only the named row, only the two
    columns, each only when the body supplies it. *)
Definition patched (id : string) (saved_amount status : jsval) (g : target) : target :=
  if names_target id g then
    mkTarget (g_id g) (g_user_id g) (g_name g) (g_amount g)
             (if is_defined saved_amount
              then option_map numeric_affinity (bound saved_amount)
              else g_saved_amount g)
             (g_deadline g) (g_description g)
             (if is_defined status
              then option_map text_affinity (bound status)
              else g_status g)
             (g_created_at g)
  else g.

(** The sum of the amounts of the transactions of type [ty] that the user
    under key [k] owns and that satisfy [p]. *)
Definition user_total (k : option sqlval) (ty : string) (p : transaction -> bool)
  (ts : list transaction) : Z :=
  total_of (fun t => owned k t && is_type ty t && p t) ts.

Definition any_date (t : transaction) : bool := true.

(** A required field is missing: absent from the body, or null. *)
Definition missing (v : jsval) : Prop := v = JUndefined \/ v = JNull.

(** The two stores hold the same rows for the user [u]. *)
Definition same_rows_for (u : sqlval) (db1 db2 : Db) : Prop :=
  filter (tx_of_user u) (transactions db1) = filter (tx_of_user u) (transactions db2) /\
  filter (target_of_user u) (targets db1) = filter (target_of_user u) (targets db2).

(** *** The ledger in the words of the data model

    The same views written without the comparison and conversion
    functions of the store, for a user that is known by the integer [k]
    and for amounts that are whole numbers. *)

(** The transaction belongs to the user [k]. *)
Definition belongs_to (k : Z) (t : transaction) : bool :=
  match t_user_id t with
  | SInt n => n =? k
  | SText _ => false
  end.

(** The target belongs to the user [k]. *)
Definition target_belongs_to (k : Z) (g : target) : bool :=
  match g_user_id g with
  | SInt n => n =? k
  | SText _ => false
  end.

(** The amount of the transaction when it is a whole number. *)
Definition whole_amount (t : transaction) : Z :=
  match t_amount t with
  | SInt n => n
  | SText _ => 0
  end.

(** The date of the transaction is a text that is not below [day]. *)
Definition on_or_after (day : string) (t : transaction) : bool :=
  match t_date t with
  | SText d => String.leb day d
  | SInt _ => false
  end.

(** The sum of the amounts of the transactions of the user [k] that have
    the type [ty] and satisfy [p]. *)
Definition sum_of (k : Z) (ty : string) (p : transaction -> bool)
  (ts : list transaction) : Z :=
  fold_right Z.add 0
    (map whole_amount
       (filter (fun t => belongs_to k t && (t_type t =? ty)%string && p t) ts)).

(** *** The claims that the code does not meet, as they are written *)

(** C3 as written: a create changes the saved_amount of a target only if
    the target is owned by the user of the request. *)
Definition credits_only_own_targets (db : Db)
  (userId type category amount description date targetId : jsval) (now : string) : Prop :=
  let db' := fst (create_transaction db userId type category amount description date
                                    targetId now) in
  forall i g g',
    nth_error (targets db) i = Some g ->
    nth_error (targets db') i = Some g' ->
    g_saved_amount g' <> g_saved_amount g ->
    user_key userId = Some (g_user_id g).

(** C4 as written: success when the row exists, NotFound (an answer that
    is not a success) and an unchanged store when it does not. *)
Definition delete_reports_not_found (db : Db) (id : string) : Prop :=
  let r := delete_transaction db id in
  (existsb (has_id id) (transactions db) = true -> snd r = Json 200 BSuccess) /\
  (existsb (has_id id) (transactions db) = false ->
     snd r <> Json 200 BSuccess /\ fst r = db).

(** C5 as written, for the amount: a create whose amount is not greater
    than 0 fails and leaves the store unchanged. *)
Definition rejects_non_positive_amount (db : Db)
  (userId type category amount description date targetId : jsval) (now : string) : Prop :=
  (exists n, option_map to_num (bound amount) = Some n /\ n <= 0) ->
  let r := create_transaction db userId type category amount description date targetId now in
  answered (snd r) = false /\ fst r = db.

(** C8 as written: the monthly sums are those of the transactions of the
    user dated within [first day of the month, today]. *)
Definition monthly_sums_within_month_to_date (db : Db) (userId : jsval) (now : Date) : Prop :=
  forall s, snd (get_stats db userId now) = Json 200 (BStats s) ->
    monthlyIncome s =
      user_total (user_key userId) "income"
                 (fun t => dated_from (monthStart now) t && dated_until (today now) t)
                 (transactions db) /\
    monthlyExpense s =
      user_total (user_key userId) "expense"
                 (fun t => dated_from (monthStart now) t && dated_until (today now) t)
                 (transactions db).

(** *** Sample stores, built with the handlers themselves *)

(** One user and one target of 1_000_000 with nothing saved. *)
Definition one_target_db : Db :=
  let db0 := empty_db true in
  let db1 := fst (register db0 (JStr "Dika") (JStr "dika@example.com") (JStr "pw")
                           "2024-05-01 08:00:00") in
  fst (create_target db1 (JNum 1) (JStr "Laptop") (JNum 1000000) JNull JNull
                    "2024-05-01 08:01:00").

(** The same store after the income transaction A (400_000, target 1). *)
Definition after_income_A : Db :=
  fst (create_transaction one_target_db (JNum 1) (JStr "income") (JStr "Gaji")
         (JNum 400000) JNull (JStr "2024-05-02") (JNum 1) "2024-05-02 09:00:00").

(** Two users; the only target belongs to the second. *)
Definition two_users_db : Db :=
  let db0 := empty_db true in
  let db1 := fst (register db0 (JStr "Dika") (JStr "dika@example.com") (JStr "pw")
                           "2024-05-01 08:00:00") in
  let db2 := fst (register db1 (JStr "Sari") (JStr "sari@example.com") (JStr "pw")
                           "2024-05-01 08:05:00") in
  fst (create_target db2 (JNum 2) (JStr "Umrah") (JNum 5000000) JNull JNull
                    "2024-05-01 08:06:00").

(** The first user has booked an expense. *)
Definition ledger_before : Db :=
  fst (create_transaction two_users_db (JNum 1) (JStr "expense") (JStr "Makan") (JNum 100)
         JNull (JStr "2024-05-03") JNull "2024-05-03 12:00:00").

(** The second user has then booked an income on the target. *)
Definition ledger_after : Db :=
  fst (create_transaction ledger_before (JNum 2) (JStr "income") (JStr "Gaji") (JNum 900)
         JNull (JStr "2024-05-04") (JNum 1) "2024-05-04 12:00:00").

(** One user with seven expenses, booked on seven consecutive days. *)
Definition seven_expenses_db : Db :=
  let db0 := empty_db true in
  let db1 := fst (register db0 (JStr "Dika") (JStr "dika@example.com") (JStr "pw")
                           "2024-05-01 08:00:00") in
  fold_left
    (fun db day =>
       fst (create_transaction db (JNum 1) (JStr "expense") (JStr "Makan") (JNum 1000)
              JNull (JStr day) JNull "2024-05-10 09:00:00"))
    ["2024-05-01"; "2024-05-02"; "2024-05-03"; "2024-05-04"; "2024-05-05";
     "2024-05-06"; "2024-05-07"] db1.

(** One user with an income of 700 dated in the year after the query. *)
Definition future_income_db : Db :=
  let db0 := empty_db true in
  let db1 := fst (register db0 (JStr "Dika") (JStr "dika@example.com") (JStr "pw")
                           "2024-05-01 08:00:00") in
  fst (create_transaction db1 (JNum 1) (JStr "income") (JStr "Bonus") (JNum 700)
         JNull (JStr "2025-01-01") JNull "2024-05-10 09:00:00").

End Ledger.

(** ** The application: the routes of [startServer] as one server *)

Module App.

Import Js Sqlite Schema Server Ledger.

(** A request to one of the routes of lines 56-149, with what the handler
    reads of its environment (the clock of the store, [new Date()]). *)
Inductive request : Type :=
| PostRegister (name email password : jsval) (now : string)
| PostLogin (email password : jsval)
| GetTransactions (userId : jsval)
| PostTransactions (userId type category amount description date targetId : jsval)
                   (now : string)
| DeleteTransaction (id : string)
| GetTargets (userId : jsval)
| PostTargets (userId name amount deadline description : jsval) (now : string)
| PatchTarget (id : string) (saved_amount status : jsval)
| GetStats (userId : jsval) (now : Date).

(** The router: each request runs the handler registered for its route. *)
Definition serve (db : Db) (req : request) : Db * response :=
  match req with
  | PostRegister name email password now => register db name email password now
  | PostLogin email password => login db email password
  | GetTransactions userId => list_transactions db userId
  | PostTransactions userId type category amount description date targetId now =>
      create_transaction db userId type category amount description date targetId now
  | DeleteTransaction id => delete_transaction db id
  | GetTargets userId => list_targets db userId
  | PostTargets userId name amount deadline description now =>
      create_target db userId name amount deadline description now
  | PatchTarget id saved_amount status => update_target db id saved_amount status
  | GetStats userId now => get_stats db userId now
  end.

(** The store after a sequence of requests, served one after the other. *)
Definition run (db : Db) (reqs : list request) : Db :=
  fold_left (fun d req => fst (serve d req)) reqs db.

(** The request is neither a delete of a transaction nor a PATCH of a
    target. *)
Definition keeps_links (req : request) : bool :=
  match req with
  | DeleteTransaction _ => false
  | PatchTarget _ _ _ => false
  | _ => true
  end.

(** *** Invariants of the store *)

(** The rowids of a table: distinct, positive and not above the counter
    of the table. *)
Definition ids_ok (ids : list Z) (seq : Z) : Prop :=
  0 <= seq /\ NoDup ids /\ forall k, In k ids -> 0 < k <= seq.

Definition wf_ids (db : Db) : Prop :=
  ids_ok (map u_id (users db)) (users_seq db) /\
  ids_ok (map g_id (targets db)) (targets_seq db) /\
  ids_ok (map t_id (transactions db)) (transactions_seq db).

(** UNIQUE(email) *)
Definition unique_emails (db : Db) : Prop := NoDup (map u_email (users db)).

(** CHECK(type IN ('income', 'expense')) *)
Definition types_checked (db : Db) : Prop :=
  forall t, In t (transactions db) -> t_type t = "income" \/ t_type t = "expense".

(** The key is the rowid of one of the rows [ids]. *)
Definition refers_to (ids : list Z) (v : sqlval) : Prop :=
  exists k, v = SInt k /\ In k ids.

(** FOREIGN KEY (user_id) REFERENCES users(id) on both tables and
    FOREIGN KEY (target_id) REFERENCES targets(id). *)
Definition fk_integrity (db : Db) : Prop :=
  (forall g, In g (targets db) -> refers_to (map u_id (users db)) (g_user_id g)) /\
  (forall t, In t (transactions db) ->
     refers_to (map u_id (users db)) (t_user_id t) /\
     forall v, t_target_id t = Some v -> refers_to (map g_id (targets db)) v).

(** *** The calendar *)

(** A date with a four-digit year, as the date columns and the template
    literal of the statistics write it. *)
Definition in_calendar (d : Date) : Prop :=
  1000 <= getFullYear d <= 9999 /\ 0 <= getMonth d <= 11 /\ 1 <= getDate d <= 31.

(** The month of a date, counted from the year 0. *)
Definition month_index (d : Date) : Z := 12 * getFullYear d + getMonth d.

(** The [n] integers from [a] on; a property of a range of years, months
    or days is checked by evaluating it on this list. *)
Fixpoint count_from (a : Z) (n : nat) : list Z :=
  match n with
  | O => []
  | S k => a :: count_from (a + 1) k
  end.

End App.

(** ** The domain on which the model follows the engine *)

Module Domain.

Import Js Sqlite Schema Server Ledger App.

(** Up to this magnitude the doubles hold every integer and add them
    without rounding. *)
Definition exact_bound : Z := 2 ^ 53.

(** The texts that the model converts as the engine does: the empty
    text, which no affinity converts, and the decimal text of an integer
    that a double holds, as [String(n)] writes it. *)
Definition plain_text (s : string) : Prop :=
  s = EmptyString \/ exists k, Z.abs k <= exact_bound /\ s = String_of k.

(** A field that is compared with or stored in a numeric column (an id,
    an amount) and is read by the model as the engine reads it: absent,
    null, an integer that a double holds or a plain text. *)
Definition plain (v : jsval) : Prop :=
  match v with
  | JStr s => plain_text s
  | JNum n => Z.abs n <= exact_bound
  | _ => True
  end.

(** The field carries the integer [k], as a number or as its decimal
    text. *)
Definition carries (v : jsval) (k : Z) : Prop :=
  v = JNum k \/ v = JStr (String_of k).

(** A field for a TEXT column that is not a number: absent, null or a
    string. *)
Definition text_field (v : jsval) : Prop :=
  match v with
  | JNum _ => False
  | _ => True
  end.

(** The number that a field adds as an amount. *)
Definition amount_of (v : jsval) : Z :=
  match bound v with
  | Some x => to_num x
  | None => 0
  end.

Definition abs_total (ts : list transaction) : Z :=
  fold_right (fun t acc => Z.abs (to_num (t_amount t)) + acc) 0 ts.

(** The amounts are whole numbers whose magnitudes together stay within
    the bound: every sum of some of them, in any order, is exact. *)
Definition exact_amounts (ts : list transaction) : Prop :=
  (forall t, In t ts -> exists n, t_amount t = SInt n) /\
  abs_total ts <= exact_bound.

(** Every saved_amount is NULL or a whole number to which [a] is added
    without rounding. *)
Definition exact_savings (gs : list target) (a : Z) : Prop :=
  forall g, In g gs ->
    g_saved_amount g = None \/
    exists n, g_saved_amount g = Some (SInt n) /\ Z.abs n + Z.abs a <= exact_bound.

(** The ids and the amount of a create are plain, and the fields of a
    registration are not numbers. *)
Definition plain_request (req : request) : Prop :=
  match req with
  | PostRegister name email password _ =>
      text_field name /\ text_field email /\ text_field password
  | PostTransactions userId _ _ amount _ _ targetId _ =>
      plain userId /\ plain amount /\ plain targetId
  | PostTargets userId _ _ _ _ _ => plain userId
  | _ => True
  end.

Definition request_amount (req : request) : Z :=
  match req with
  | PostTransactions _ _ _ amount _ _ _ _ => Z.abs (amount_of amount)
  | _ => 0
  end.

(** The magnitudes of the amounts of all the creates of a run. *)
Definition requested_total (reqs : list request) : Z :=
  fold_right (fun req acc => request_amount req + acc) 0 reqs.

End Domain.

(** ** The client (the React application) *)

Module Client.

Import Schema.

(** The rows that the dashboard keeps of the answer of
    GET /api/transactions: [.slice(0, 5)]. *)
Definition recentTransactions (rows : list transaction) : list transaction :=
  firstn 5 rows.

End Client.

(** ** Properties *)

Import Js Sqlite Schema Server Ledger App Domain Client.

(** *** The model on concrete requests *)

Example monthStart_may : monthStart (mkDate 2024 4 15) = "2024-05-01".
Proof. reflexivity. Qed.

Example monthStart_december : monthStart (mkDate 2023 11 31) = "2023-12-01".
Proof. reflexivity. Qed.

Example numerals :
  int_literal "400000" = Some 400000 /\ int_literal "-12" = Some (-12) /\
  int_literal EmptyString = None /\ int_literal "2024-05-01" = None /\
  numeric_prefix "12abc" = 12 /\ numeric_prefix "abc" = 0.
Proof. repeat split; reflexivity. Qed.

(** The browser client sends the amount and the target id as strings. *)
Example income_from_the_form :
  saved_amount_of
    (fst (create_transaction one_target_db (JNum 1) (JStr "income") (JStr "Gaji")
            (JStr "400000") (JStr EmptyString) (JStr "2024-05-02") (JStr "1")
            "2024-05-02 09:00:00")) 1
  = Some (Some (SInt 400000)).
Proof. reflexivity. Qed.

(** The empty target id of the form is stored as a text; with the foreign
    keys enforced the insert is refused. *)
Example empty_target_id_from_the_form :
  create_transaction one_target_db (JNum 1) (JStr "expense") (JStr "Makan")
    (JStr "1000") (JStr EmptyString) (JStr "2024-05-02") (JStr EmptyString)
    "2024-05-02 09:00:00"
  = (one_target_db, Uncaught ConstraintForeignKey).
Proof. reflexivity. Qed.

(** A description and a target id that the body leaves out are stored as
    NULL; a number is stored in a TEXT column as the text of a REAL. *)
Example absent_fields_are_stored_as_null :
  match create_transaction one_target_db (JNum 1) (JStr "expense") (JNum 7)
          (JStr "1000") JUndefined (JStr "2024-05-02") JUndefined "2024-05-02 09:00:00" with
  | (db, Json 200 (BId 1)) =>
      map (fun t => (t_category t, t_description t, t_target_id t)) (transactions db)
      = [("7.0", None, None)]
  | _ => False
  end.
Proof. reflexivity. Qed.

(** The scenario of the spec: A (400_000) and B (300_000) on target 1, then
    A is deleted: the target keeps 700_000. *)
Example scenario_of_the_spec :
  let db_b := fst (create_transaction after_income_A (JNum 1) (JStr "income") (JStr "Bonus")
                     (JNum 300000) JNull (JStr "2024-05-03") (JNum 1)
                     "2024-05-03 09:00:00") in
  saved_amount_of after_income_A 1 = Some (Some (SInt 400000)) /\
  saved_amount_of db_b 1 = Some (Some (SInt 700000)) /\
  saved_amount_of (fst (delete_transaction db_b "1")) 1 = Some (Some (SInt 700000)) /\
  linked_income_sum (fst (delete_transaction db_b "1")) 1 = 300000.
Proof. repeat split; reflexivity. Qed.

Example transactions_newest_first :
  let db_b := fst (create_transaction after_income_A (JNum 1) (JStr "expense") (JStr "Makan")
                     (JNum 1000) JNull (JStr "2024-05-09") JNull
                     "2024-05-09 09:00:00") in
  match snd (list_transactions db_b (JStr "1")) with
  | Json 200 (BTransactions rows) => map t_id rows = [2; 1]
  | _ => False
  end.
Proof. reflexivity. Qed.

(** An income of the last day of April is left out of the monthly sum of
    May, one of the first of May is counted. *)
Example month_window_in_may :
  let db1 := fst (create_transaction one_target_db (JNum 1) (JStr "income") (JStr "Gaji")
                    (JNum 50) JNull (JStr "2024-04-30") JNull "2024-05-02 09:00:00") in
  let db2 := fst (create_transaction db1 (JNum 1) (JStr "income") (JStr "Gaji")
                    (JNum 7) JNull (JStr "2024-05-01") JNull "2024-05-02 09:01:00") in
  match snd (get_stats db2 (JStr "1") (mkDate 2024 4 15)) with
  | Json 200 (BStats s) => monthlyIncome s = 7 /\ totalIncome s = 57 /\ balance s = 57
  | _ => False
  end.
Proof. repeat split; reflexivity. Qed.

(** *** The delete handler and the targets *)

(** DELETE /api/transactions/:id touches the transactions table only. *)
Lemma delete_transaction_frame (db : Db) (id : string) :
  users (fst (delete_transaction db id)) = users db /\
  targets (fst (delete_transaction db id)) = targets db /\
  foreign_keys (fst (delete_transaction db id)) = foreign_keys db.
Proof. unfold delete_transaction; simpl; auto. Qed.

(** It always answers [{ success: true }]. *)
Lemma delete_transaction_answer (db : Db) (id : string) :
  snd (delete_transaction db id) = Json 200 BSuccess.
Proof. reflexivity. Qed.

(** C1 (fails on the code): the invariant holds after the create, and the
    delete of the linked income transaction leaves the saved_amount of the
    target at 400_000 while no linked income is left. *)
Theorem C1_delete_breaks_saved_amount_invariant :
  saved_matches_links one_target_db /\
  saved_matches_links after_income_A /\
  let db' := fst (delete_transaction after_income_A "1") in
  transactions db' = [] /\
  saved_amount_of db' 1 = Some (Some (SInt 400000)) /\
  linked_income_sum db' 1 = 0 /\
  ~ saved_matches_links db'.
Proof.
  split; [| split].
  - intros g [<- | []]; reflexivity.
  - intros g [<- | []]; reflexivity.
  - cbv zeta. repeat split; try reflexivity.
    intros H. specialize (H _ (or_introl eq_refl)). discriminate H.
Qed.

(** C2 (fails on the code): create then delete of the same linked income
    transaction does not restore the saved_amount: it was 0 before the
    create and is 400_000 after the delete. *)
Theorem C2_create_then_delete_keeps_increment :
  saved_amount_of one_target_db 1 = Some (Some (SInt 0)) /\
  create_transaction one_target_db (JNum 1) (JStr "income") (JStr "Gaji")
    (JNum 400000) JNull (JStr "2024-05-02") (JNum 1) "2024-05-02 09:00:00"
  = (after_income_A, Json 200 (BId 1)) /\
  snd (delete_transaction after_income_A "1") = Json 200 BSuccess /\
  transactions (fst (delete_transaction after_income_A "1")) = transactions one_target_db /\
  saved_amount_of (fst (delete_transaction after_income_A "1")) 1
  = Some (Some (SInt 400000)).
Proof. repeat split; reflexivity. Qed.

(** *** Basic facts on values and statements *)

Ltac inv_rbind H :=
  repeat match type of H with
         | rbind ?r _ = Ok _ =>
             let E := fresh "E" in
             destruct r eqn:E; simpl in H; [| discriminate H]
         end.

Lemma bind_bound (v : jsval) (o : option sqlval) : bind v = Ok o -> bound v = o.
Proof. unfold bound; intros ->; reflexivity. Qed.

(** Every modelled scalar is bound. *)
Lemma bind_total (v : jsval) : bind v = Ok (bound v).
Proof. destruct v; reflexivity. Qed.

Lemma bind_defined (v : jsval) : is_defined v = true -> bind v = Ok (bound v).
Proof. intros _. apply bind_total. Qed.

Lemma guard_ok (b : bool) (e : exn) (u : unit) : guard b e = Ok u -> b = true.
Proof. destruct b; simpl; intros H; [reflexivity | discriminate H]. Qed.

(** The affinity keeps the number a value stands for. *)
Lemma to_num_numeric_affinity (v : sqlval) : to_num (numeric_affinity v) = to_num v.
Proof.
  destruct v as [n | s]; [reflexivity |].
  unfold numeric_affinity, int_literal.
  destruct (read_int s) as [[v k] rest] eqn:E.
  destruct k as [| k]; [reflexivity |].
  destruct rest; [| reflexivity].
  simpl. unfold numeric_prefix. rewrite E. reflexivity.
Qed.

Lemma numeric_affinity_idem (v : sqlval) :
  numeric_affinity (numeric_affinity v) = numeric_affinity v.
Proof.
  destruct v as [n | s]; simpl; [reflexivity |].
  destruct (int_literal s) eqn:E; simpl; [reflexivity | rewrite E; reflexivity].
Qed.

(** [WHERE id = ?] selects the row whose rowid is the key of the field. *)
Lemma num_col_eq_row_key (k : Z) (v : jsval) :
  num_col_eq (SInt k) (bound v) =
  match row_key v with Some n => n =? k | None => false end.
Proof.
  unfold num_col_eq, row_key, opt_test.
  destruct (bound v) as [p |]; [| reflexivity].
  destruct (numeric_affinity p); simpl; [apply Z.eqb_sym | reflexivity].
Qed.

Lemma row_key_path (id : string) : row_key (JStr id) = int_literal id.
Proof. unfold row_key; simpl. destruct (int_literal id); reflexivity. Qed.

(** [WHERE user_id = ?] selects the rows owned under the key of the field. *)
Lemma num_col_eq_owned (v : jsval) (t : transaction) :
  num_col_eq (t_user_id t) (bound v) = owned (user_key v) t.
Proof. unfold num_col_eq, user_key, owned; destruct (bound v); reflexivity. Qed.

Lemma total_of_ext (p q : transaction -> bool) (ts : list transaction) :
  (forall t, p t = q t) -> total_of p ts = total_of q ts.
Proof. intros H; induction ts as [| t ts IH]; simpl; [reflexivity |]. rewrite H, IH; reflexivity. Qed.

Lemma total_of_app (p : transaction -> bool) (xs ys : list transaction) :
  total_of p (xs ++ ys) = total_of p xs + total_of p ys.
Proof. induction xs as [| t xs IH]; simpl; [reflexivity |]. rewrite IH; lia. Qed.

(** [SUM(amount) ... || 0] is the plain sum of the selected rows. *)
Lemma or_zero_sql_sum (p : transaction -> bool) (ts : list transaction) :
  or_zero (sql_sum (map t_amount (filter p ts))) = total_of p ts.
Proof.
  assert (H : forall vs, or_zero (sql_sum vs) = fold_right (fun v acc => to_num v + acc) 0 vs)
    by (intros [| v vs]; reflexivity).
  rewrite H. clear H.
  induction ts as [| t ts IH]; simpl; [reflexivity |].
  destruct (p t); simpl; rewrite IH; reflexivity.
Qed.

Lemma total_of_none (p : transaction -> bool) (ts : list transaction) :
  (forall t, In t ts -> p t = false) -> total_of p ts = 0.
Proof.
  induction ts as [| t ts IH]; simpl; intros H; [reflexivity |].
  rewrite (H t (or_introl eq_refl)), IH; [reflexivity |].
  intros t' Ht'; apply H; right; exact Ht'.
Qed.

Lemma filter_all {A} (p : A -> bool) (xs : list A) :
  (forall x, In x xs -> p x = true) -> filter p xs = xs.
Proof.
  induction xs as [| x xs IH]; simpl; intros H; [reflexivity |].
  rewrite (H x (or_introl eq_refl)), IH; [reflexivity |].
  intros y Hy; apply H; right; exact Hy.
Qed.

Lemma with_transactions_same (db : Db) :
  with_transactions db (transactions db) (transactions_seq db) = db.
Proof. destruct db; reflexivity. Qed.

Lemma with_targets_same (db : Db) :
  with_targets db (targets db) (targets_seq db) = db.
Proof. destruct db; reflexivity. Qed.

(** *** The decimal text of an integer *)

Lemma read_digits_uint_acc (d : Decimal.uint) : forall p,
  exists k, read_digits (Z.pos p) (NilEmpty.string_of_uint d)
            = (Z.pos (Pos.of_uint_acc d p), k, EmptyString).
Proof.
  induction d; intros p; cbn [NilEmpty.string_of_uint read_digits];
    try (change (digit_of "0") with (Some 0); change (digit_of "1") with (Some 1);
         change (digit_of "2") with (Some 2); change (digit_of "3") with (Some 3);
         change (digit_of "4") with (Some 4); change (digit_of "5") with (Some 5);
         change (digit_of "6") with (Some 6); change (digit_of "7") with (Some 7);
         change (digit_of "8") with (Some 8); change (digit_of "9") with (Some 9);
         cbn [Pos.of_uint_acc];
         match goal with
         | |- context [read_digits ?a (NilEmpty.string_of_uint d)] =>
             match goal with
             | |- context [Pos.of_uint_acc d ?q] =>
                 replace a with (Z.pos q) by lia; destruct (IHd q) as (k & ->)
             end
         end; eexists; reflexivity).
  eexists; reflexivity.
Qed.

Lemma read_digits_uint_zero (d : Decimal.uint) :
  exists k, read_digits 0 (NilEmpty.string_of_uint d)
            = (Z.of_N (Pos.of_uint d), k, EmptyString) /\ (d <> Decimal.Nil -> k <> O).
Proof.
  induction d; cbn [NilEmpty.string_of_uint read_digits Pos.of_uint];
    try (change (digit_of "0") with (Some 0); change (digit_of "1") with (Some 1);
         change (digit_of "2") with (Some 2); change (digit_of "3") with (Some 3);
         change (digit_of "4") with (Some 4); change (digit_of "5") with (Some 5);
         change (digit_of "6") with (Some 6); change (digit_of "7") with (Some 7);
         change (digit_of "8") with (Some 8); change (digit_of "9") with (Some 9);
         cbn [Z.mul Z.add]).
  - exists O. split; [reflexivity | intros H; contradiction].
  - destruct IHd as (k & -> & _). exists (S k). split; [reflexivity | discriminate].
  - destruct (read_digits_uint_acc d 1) as (k & ->). exists (S k). split; [reflexivity | discriminate].
  - destruct (read_digits_uint_acc d 2) as (k & ->). exists (S k). split; [reflexivity | discriminate].
  - destruct (read_digits_uint_acc d 3) as (k & ->). exists (S k). split; [reflexivity | discriminate].
  - destruct (read_digits_uint_acc d 4) as (k & ->). exists (S k). split; [reflexivity | discriminate].
  - destruct (read_digits_uint_acc d 5) as (k & ->). exists (S k). split; [reflexivity | discriminate].
  - destruct (read_digits_uint_acc d 6) as (k & ->). exists (S k). split; [reflexivity | discriminate].
  - destruct (read_digits_uint_acc d 7) as (k & ->). exists (S k). split; [reflexivity | discriminate].
  - destruct (read_digits_uint_acc d 8) as (k & ->). exists (S k). split; [reflexivity | discriminate].
  - destruct (read_digits_uint_acc d 9) as (k & ->). exists (S k). split; [reflexivity | discriminate].
Qed.

Lemma read_int_unsigned (d : Decimal.uint) :
  read_int (NilEmpty.string_of_uint d) = read_digits 0 (NilEmpty.string_of_uint d).
Proof. destruct d; reflexivity. Qed.

(** The text of an integer reads back as the integer: the id that the
    client writes into the path is the id the server compares. *)
Lemma int_literal_String_of (n : Z) : int_literal (String_of n) = Some n.
Proof.
  unfold String_of, Z.to_int. destruct n as [| p | p]; [reflexivity | |].
  - cbn [NilZero.string_of_int]. unfold NilZero.string_of_uint.
    pose proof (DecimalPos.Unsigned.to_uint_nonnil p) as Hnn.
    pose proof (DecimalPos.Unsigned.of_to p) as Hof.
    destruct (read_digits_uint_zero (Pos.to_uint p)) as (k & E & Hk).
    specialize (Hk Hnn). rewrite Hof in E.
    unfold int_literal.
    destruct (Pos.to_uint p) eqn:Ed; try contradiction;
      rewrite <- Ed in *; rewrite read_int_unsigned, E;
      destruct k; try contradiction; reflexivity.
  - cbn [NilZero.string_of_int]. unfold NilZero.string_of_uint.
    pose proof (DecimalPos.Unsigned.to_uint_nonnil p) as Hnn.
    pose proof (DecimalPos.Unsigned.of_to p) as Hof.
    destruct (read_digits_uint_zero (Pos.to_uint p)) as (k & E & Hk).
    specialize (Hk Hnn). rewrite Hof in E.
    unfold int_literal, read_int.
    destruct (Pos.to_uint p) eqn:Ed; try contradiction;
      rewrite <- Ed in *; rewrite E;
      destruct k; try contradiction; reflexivity.
Qed.

Lemma numeric_prefix_String_of (n : Z) : numeric_prefix (String_of n) = n.
Proof.
  pose proof (to_num_numeric_affinity (SText (String_of n))) as H.
  cbn [numeric_affinity] in H. rewrite int_literal_String_of in H.
  symmetry. exact H.
Qed.

(** A field that carries an integer selects the row with that rowid,
    adds that number and is stored as that number. *)
Lemma carries_row_key (v : jsval) (k : Z) : carries v k -> row_key v = Some k.
Proof.
  intros [-> | ->]; [reflexivity |]. rewrite row_key_path. apply int_literal_String_of.
Qed.

Lemma carries_to_num (v : jsval) (a : Z) :
  carries v a -> option_map to_num (bound v) = Some a.
Proof.
  intros [-> | ->]; cbn; [reflexivity |]. rewrite numeric_prefix_String_of. reflexivity.
Qed.

Lemma carries_stored (v : jsval) (n : Z) :
  carries v n -> option_map numeric_affinity (bound v) = Some (SInt n).
Proof.
  intros [-> | ->]; cbn; [reflexivity |]. rewrite int_literal_String_of. reflexivity.
Qed.

(** What a successful INSERT INTO transactions has checked and written. *)
Lemma insert_transaction_ok (db db1 : Db)
  (userId type category amount description date targetId : jsval) (now : string) (id : Z) :
  insert_transaction db userId type category amount description date targetId now
  = Ok (db1, id) ->
  bind amount = Ok (bound amount) /\ bind targetId = Ok (bound targetId) /\
  users db1 = users db /\ targets db1 = targets db /\
  targets_seq db1 = targets_seq db /\ foreign_keys db1 = foreign_keys db /\
  exists t,
    transactions db1 = (transactions db ++ [t])%list /\
    t_id t = id /\ id = transactions_seq db + 1 /\
    Some (t_user_id t) = user_key userId /\
    Some (t_type t) = option_map text_affinity (bound type) /\
    ((t_type t =? "income")%string || (t_type t =? "expense")%string = true) /\
    Some (t_amount t) = option_map numeric_affinity (bound amount) /\
    t_target_id t = option_map numeric_affinity (bound targetId).
Proof.
  unfold insert_transaction. intros H. inv_rbind H.
  injection H as <- <-.
  apply guard_ok in E11.
  unfold user_key.
  rewrite (bind_bound _ _ E), (bind_bound _ _ E0), (bind_bound _ _ E2), (bind_bound _ _ E5).
  clear E2 E5.
  destruct a, a0, a2 ; simpl in *; try discriminate.
  injection E6 as <-. injection E7 as <-. injection E9 as <-.
  repeat split; auto using bind_total.
  eexists; repeat split; simpl; auto.
Qed.

(** *** The linking rule on create *)

(** C3 as written fails: the first user books an income on the target of
    the second user, and the saved_amount of that target changes. *)
Lemma C3_credits_target_of_other_user :
  ~ credits_only_own_targets two_users_db (JNum 1) (JStr "income") (JStr "Gaji")
      (JNum 500) JNull (JStr "2024-05-02") (JNum 1) "2024-05-02 09:00:00".
Proof.
  intros H.
  specialize (H 0%nat _ _ eq_refl eq_refl).
  assert (E : user_key (JNum 1) = Some (SInt 2)) by (apply H; discriminate).
  discriminate E.
Qed.

(** The UPDATE of the linking rule credits the row that the target id
    names and no other. *)
Lemma update_target_add_credits (db : Db) (amount targetId : jsval) :
  bind amount = Ok (bound amount) -> bind targetId = Ok (bound targetId) ->
  update_target_add db amount targetId
  = Ok (with_targets db (map (credited targetId amount) (targets db)) (targets_seq db)).
Proof.
  intros Ha Ht. unfold update_target_add.
  rewrite Ha, Ht. cbn [rbind].
  f_equal. f_equal. apply map_ext. intros g.
  rewrite num_col_eq_row_key. unfold credited.
  destruct (row_key targetId); reflexivity.
Qed.

(** C3 (amended): for a request whose user id, target id and amount are
    plain and whose amount is added without rounding, a create credits a
    target exactly when the insert went through, the type is the string
    income and the target id is truthy; the credited row is the one the
    target id names, whoever owns it, and its saved_amount grows by the
    amount: for a target id that carries [k] and an amount that carries
    [a], the row with id [k] goes from [n] to [n + a] and every other row
    stays.  In every other case the targets table is unchanged; the users
    table never changes. *)
Theorem C3_create_credits_named_target (db : Db)
  (userId type category amount description date targetId : jsval) (now : string) :
  plain userId -> plain targetId -> plain amount ->
  exact_savings (targets db) (amount_of amount) ->
  let r := create_transaction db userId type category amount description date targetId now in
  users (fst r) = users db /\
  targets (fst r) =
    (if answered (snd r) && strict_eq_str type "income" && truthy targetId
     then map (credited targetId amount) (targets db)
     else targets db) /\
  forall k a, carries targetId k -> carries amount a -> forall g,
    (g_id g <> k -> credited targetId amount g = g) /\
    (g_id g = k -> forall n, g_saved_amount g = Some (SInt n) ->
       credited targetId amount g = set_saved_amount g (Some (SInt (n + a)))).
Proof.
  intros _ _ _ _. cbv zeta.
  assert (Hrow : forall k a, carries targetId k -> carries amount a -> forall g,
    (g_id g <> k -> credited targetId amount g = g) /\
    (g_id g = k -> forall n, g_saved_amount g = Some (SInt n) ->
       credited targetId amount g = set_saved_amount g (Some (SInt (n + a))))).
  { intros k a Hk Ha g. unfold credited. rewrite (carries_row_key _ _ Hk).
    apply carries_to_num in Ha.
    split.
    - intros Hne. destruct (Z.eqb_spec k (g_id g)) as [E | E]; [| reflexivity].
      exfalso. apply Hne. symmetry. exact E.
    - intros <- n Hn. rewrite Z.eqb_refl, Hn.
      destruct (bound amount) as [x |]; [| discriminate Ha].
      cbn in Ha |- *. injection Ha as ->. reflexivity. }
  unfold create_transaction.
  destruct (insert_transaction db userId type category amount description date targetId now)
    as [[db1 id] | e] eqn:E;
    [| split; [reflexivity | split; [reflexivity | exact Hrow]]].
  apply insert_transaction_ok in E as (Ha & Ht & Hu & Hg & _).
  destruct (strict_eq_str type "income" && truthy targetId) eqn:C.
  - rewrite (update_target_add_credits db1 _ _ Ha Ht).
    cbn [fst snd answered andb users targets with_targets]. rewrite C.
    split; [exact Hu |]. split; [rewrite Hg; reflexivity | exact Hrow].
  - cbn [fst snd answered andb]. rewrite C.
    split; [exact Hu |]. split; [exact Hg | exact Hrow].
Qed.

Lemma C3_create_credits_named_target_witness :
  targets (fst (create_transaction two_users_db (JNum 1) (JStr "income") (JStr "Gaji")
                  (JStr "500") JUndefined (JStr "2024-05-02") (JStr "1")
                  "2024-05-02 09:00:00"))
  = map (credited (JStr "1") (JStr "500")) (targets two_users_db).
Proof.
  apply (C3_create_credits_named_target two_users_db (JNum 1) (JStr "income") (JStr "Gaji")
           (JStr "500") JUndefined (JStr "2024-05-02") (JStr "1") "2024-05-02 09:00:00").
  - unfold plain; apply Z.leb_le; reflexivity.
  - right. exists 1. split; [apply Z.leb_le; reflexivity | reflexivity].
  - right. exists 500. split; [apply Z.leb_le; reflexivity | reflexivity].
  - intros g [<- | []]. right. exists 0. split; [reflexivity |].
    apply Z.leb_le. reflexivity.
Defined.

(** *** Delete *)

(** C4 as written fails: on a store without transactions the delete of
    transaction 7 answers success, not NotFound. *)
Lemma C4_delete_of_absent_row_succeeds :
  ~ delete_reports_not_found (empty_db true) "7".
Proof.
  intros [_ H]. destruct (H eq_refl) as [Hne _]. apply Hne. reflexivity.
Qed.

Lemma num_col_eq_path (k : Z) (id : string) :
  num_col_eq (SInt k) (Some (SText id)) = match int_literal id with
                                          | Some n => n =? k
                                          | None => false
                                          end.
Proof. rewrite <- row_key_path. exact (num_col_eq_row_key k (JStr id)). Qed.

(** C4 (amended): a delete whose path carries the decimal text of an
    integer always answers success; the transaction with that id is
    removed, whoever owns it, and no other row of any table changes; when
    no transaction has that id the store is unchanged. *)
Theorem C4_delete_always_succeeds (db : Db) (k : Z) :
  snd (delete_transaction db (String_of k)) = Json 200 BSuccess /\
  transactions (fst (delete_transaction db (String_of k)))
  = filter (fun t => negb (t_id t =? k)) (transactions db) /\
  users (fst (delete_transaction db (String_of k))) = users db /\
  targets (fst (delete_transaction db (String_of k))) = targets db /\
  (existsb (fun t => t_id t =? k) (transactions db) = false ->
   fst (delete_transaction db (String_of k)) = db).
Proof.
  assert (Hf : transactions (fst (delete_transaction db (String_of k)))
               = filter (fun t => negb (t_id t =? k)) (transactions db)).
  { unfold delete_transaction, delete_transaction_row.
    cbn [bind rbind fst with_transactions transactions].
    apply filter_ext. intros t.
    rewrite num_col_eq_path, int_literal_String_of, Z.eqb_sym. reflexivity. }
  repeat split; try reflexivity; [exact Hf |].
  intros H.
  assert (Hall : filter (fun t => negb (t_id t =? k)) (transactions db) = transactions db).
  { apply filter_all. intros t Ht.
    destruct (t_id t =? k) eqn:E; [exfalso | reflexivity].
    assert (Hex : existsb (fun t0 => t_id t0 =? k) (transactions db) = true)
      by (apply existsb_exists; exists t; split; assumption).
    rewrite H in Hex. discriminate Hex. }
  rewrite Hall in Hf.
  unfold delete_transaction, delete_transaction_row in *.
  cbn [bind rbind fst with_transactions transactions] in *.
  rewrite Hf. destruct db; reflexivity.
Qed.

Lemma C4_delete_always_succeeds_witness :
  fst (delete_transaction after_income_A (String_of 7)) = after_income_A.
Proof.
  apply (proj2 (proj2 (proj2 (proj2 (C4_delete_always_succeeds after_income_A 7))))).
  reflexivity.
Defined.

(** *** Rejected requests *)

(** The text of a number starts with a digit or with the sign. *)
Lemma String_of_not_type (n : Z) :
  text_affinity (SInt n) <> "income" /\ text_affinity (SInt n) <> "expense".
Proof.
  unfold text_affinity, String_of, NilZero.string_of_int.
  destruct (Z.to_int n) as [d | d]; destruct d; simpl; split; discriminate.
Qed.

(** What INSERT INTO transactions refuses. *)
Lemma insert_transaction_checked (db db1 : Db)
  (userId type category amount description date targetId : jsval) (now : string) (id : Z) :
  insert_transaction db userId type category amount description date targetId now
  = Ok (db1, id) ->
  ~ missing userId /\ ~ missing type /\ ~ missing category /\ ~ missing amount /\
  ~ missing date /\
  (type = JStr "income" \/ type = JStr "expense").
Proof.
  unfold insert_transaction. intros H. inv_rbind H. clear H.
  assert (NN : forall {A} (f : sqlval -> A) v o x,
             bind v = Ok o -> not_null (option_map f o) = Ok x -> ~ missing v).
  { intros A f v o x Hb Hn [-> | ->]; simpl in Hb;
      injection Hb as <-; discriminate Hn. }
  repeat split; eauto.
  apply guard_ok in E11.
  destruct type as [ | | n | s]; simpl in E0.
  - injection E0 as <-. discriminate E7.
  - injection E0 as <-. discriminate E7.
  - injection E0 as <-. cbn [option_map not_null] in E7. injection E7 as <-.
    destruct (String_of_not_type n) as [Hi He].
    apply orb_true_iff in E11 as [E11 | E11]; apply String.eqb_eq in E11; contradiction.
  - injection E0 as <-. simpl in E7. injection E7 as <-.
    apply orb_true_iff in E11 as [E11 | E11]; apply String.eqb_eq in E11; subst; auto.
Qed.

(** C5 as written fails for the amount: an expense of -5 is accepted and
    stored. *)
Lemma C5_negative_amount_is_stored :
  ~ rejects_non_positive_amount one_target_db (JNum 1) (JStr "expense") (JStr "Makan")
      (JNum (-5)) JNull (JStr "2024-05-02") JNull "2024-05-02 09:00:00".
Proof.
  intros H. destruct H as [Ha _].
  - exists (-5). split; [reflexivity | lia].
  - discriminate Ha.
Qed.

(** C5 (amended): a create with a missing (absent or null) user id, type,
    category, amount or date, or with a type other than the strings income
    and expense is refused by the store (NOT NULL, CHECK): the exception
    leaves the handler and the store is unchanged.  An absent description
    or target id is stored as NULL, and the amount is not checked. *)
Theorem C5_store_refuses_malformed_create (db : Db)
  (userId type category amount description date targetId : jsval) (now : string) :
  missing userId \/ missing type \/ missing category \/ missing amount \/ missing date \/
  (type <> JStr "income" /\ type <> JStr "expense") ->
  exists e,
    create_transaction db userId type category amount description date targetId now
    = (db, Uncaught e).
Proof.
  intros H. unfold create_transaction.
  destruct (insert_transaction db userId type category amount description date targetId now)
    as [[db1 id] | e] eqn:E; [exfalso | exists e; reflexivity].
  apply insert_transaction_checked in E
    as (H1 & H2 & H3 & H4 & H5 & H8).
  destruct H as [H | [H | [H | [H | [H | [Hi He]]]]]]; try contradiction.
  destruct H8; contradiction.
Qed.

Lemma C5_store_refuses_malformed_create_witness :
  exists e,
    create_transaction one_target_db (JNum 1) (JStr "transfer") (JStr "Makan") (JNum 100)
      JNull (JStr "2024-05-02") JNull "2024-05-02 09:00:00"
    = (one_target_db, Uncaught e).
Proof.
  apply C5_store_refuses_malformed_create.
  do 5 right. split; discriminate.
Defined.

(** *** Registration *)

(** What a successful INSERT INTO users has written. *)
Lemma insert_user_ok (db db1 : Db) (name email password : jsval) (now : string) (id : Z) :
  insert_user db name email password now = Ok (db1, id) ->
  exists u,
    users db1 = (users db ++ [u])%list /\
    Some (u_email u) = option_map text_affinity (bound email).
Proof.
  unfold insert_user. intros H. inv_rbind H. injection H as <- <-.
  rewrite (bind_bound _ _ E0).
  eexists. split; [reflexivity |]. simpl.
  destruct a0; simpl in E3; [injection E3 as <-; reflexivity | discriminate E3].
Qed.

(** The UNIQUE constraint on email: a taken email makes the INSERT throw. *)
Lemma insert_user_duplicate (db : Db) (name email password : jsval) (now : string) (u : user) :
  In u (users db) ->
  option_map text_affinity (bound email) = Some (u_email u) ->
  exists e, insert_user db name email password now = Throw e.
Proof.
  intros Hin He.
  destruct (insert_user db name email password now) as [[db1 id] | e] eqn:E;
    [exfalso | exists e; reflexivity].
  unfold insert_user in E. inv_rbind E.
  match goal with G : guard _ _ = Ok _ |- _ =>
    apply guard_ok in G; apply negb_true_iff in G; rename G into Hg end.
  match goal with B : bind email = Ok _ |- _ => apply bind_bound in B; subst end.
  match goal with N : not_null (option_map _ (bound email)) = Ok _ |- _ =>
    rewrite He in N; injection N as <- end.
  assert (Hex : existsb (fun x => (u_email x =? u_email u)%string) (users db) = true).
  { apply existsb_exists. exists u. split; [exact Hin | apply String.eqb_refl]. }
  rewrite Hg in Hex. discriminate Hex.
Qed.

(** C6: a registration with an email (a string) that a user row already
    holds is answered with status 400 and "Email already exists", and the
    store is the one before the call: the first user's row is untouched
    and no row is added. *)
Theorem C6_duplicate_email_is_refused (db : Db) (name password : jsval)
  (email now : string) (u : user) :
  In u (users db) ->
  u_email u = email ->
  register db name (JStr email) password now
  = (db, Json 400 (BError "Email already exists")).
Proof.
  intros Hin He. unfold register.
  destruct (insert_user_duplicate db name (JStr email) password now u Hin) as [e ->].
  - cbn. rewrite He. reflexivity.
  - reflexivity.
Qed.

Lemma C6_duplicate_email_is_refused_witness :
  register one_target_db (JStr "Sari") (JStr "dika@example.com") (JStr "other")
           "2024-06-01 10:00:00"
  = (one_target_db, Json 400 (BError "Email already exists")).
Proof.
  apply (C6_duplicate_email_is_refused one_target_db (JStr "Sari") (JStr "other")
           "dika@example.com" "2024-06-01 10:00:00"
           (mkUser 1 "Dika" "dika@example.com" "pw" None "2024-05-01 08:00:00")).
  - left. reflexivity.
  - reflexivity.
Defined.

(** The scenario of the spec: after a first registration went through, a
    second one with the same email fails and leaves the store as the first
    one left it. *)
Lemma registering_twice_fails (db db1 : Db) (name1 name2 email pw1 pw2 : jsval)
  (now1 now2 : string) (id : Z) :
  register db name1 email pw1 now1 = (db1, Json 200 (BRegistered id name1 email)) ->
  register db1 name2 email pw2 now2 = (db1, Json 400 (BError "Email already exists")).
Proof.
  unfold register at 1.
  destruct (insert_user db name1 email pw1 now1) as [[db' id'] | e] eqn:E;
    intros H; [| discriminate H].
  injection H as <- _.
  apply insert_user_ok in E as (u & Hu & He).
  unfold register.
  destruct (insert_user_duplicate db' name2 email pw2 now2 u) as [e ->];
    [rewrite Hu; apply in_or_app; right; left; reflexivity | symmetry; exact He |].
  reflexivity.
Qed.

(** *** Statistics *)

Lemma read_digits_uint (d : Decimal.uint) : forall acc r,
  exists v k, read_digits acc (NilEmpty.string_of_uint d ++ String "-" r)%string
              = (v, k, String "-" r).
Proof.
  induction d; intros acc r; simpl;
    try (match goal with
         | |- context [read_digits ?a (NilEmpty.string_of_uint d ++ _)%string] =>
             destruct (IHd a r) as (v & k & ->)
         end; eauto).
  eauto.
Qed.

Lemma read_int_String_of (n : Z) (r : string) :
  exists v k, read_int (String_of n ++ String "-" r)%string = (v, k, String "-" r).
Proof.
  unfold String_of, NilZero.string_of_int, NilZero.string_of_uint.
  destruct (Z.to_int n) as [d | d].
  - destruct d; simpl; eauto;
      match goal with
      | |- context [read_digits ?a (NilEmpty.string_of_uint ?d ++ _)%string] =>
          destruct (read_digits_uint d a r) as (v & k & ->)
      end; eauto.
  - unfold read_int.
    destruct d; simpl; eauto;
      match goal with
      | |- context [read_digits ?a (NilEmpty.string_of_uint ?d ++ _)%string] =>
          destruct (read_digits_uint d a r) as (v & k & ->)
      end; eauto.
Qed.

(** The first day of the month is never taken for a number: the
    comparison [date >= ?] is one with the text. *)
Lemma monthStart_is_text (now : Date) :
  numeric_affinity (SText (monthStart now)) = SText (monthStart now).
Proof.
  unfold numeric_affinity, int_literal, monthStart.
  destruct (read_int_String_of (getFullYear now)
              (padStart2 (String_of (getMonth now + 1)) ++ "-01")%string) as (v & k & E).
  simpl in E |- *. rewrite E. destruct k; reflexivity.
Qed.

(** For a user id that carries [k] and whole amounts, the sums of the
    store are the sums of the data model. *)
Lemma owned_carries (v : jsval) (k : Z) (t : transaction) :
  carries v k -> owned (user_key v) t = belongs_to k t.
Proof.
  intros Hc. unfold user_key. rewrite (carries_stored _ _ Hc).
  unfold owned, tx_of_user, belongs_to. destruct (t_user_id t); reflexivity.
Qed.

Lemma dated_from_on_or_after (day : string) (t : transaction) :
  dated_from day t = on_or_after day t.
Proof. unfold dated_from, on_or_after, sql_ge. destruct (t_date t); reflexivity. Qed.

Lemma user_total_carries (v : jsval) (k : Z) (ty : string) (p q : transaction -> bool)
  (ts : list transaction) :
  carries v k ->
  (forall t, In t ts -> exists n, t_amount t = SInt n) ->
  (forall t, p t = q t) ->
  user_total (user_key v) ty p ts = sum_of k ty q ts.
Proof.
  intros Hc Hw Hpq. unfold user_total, sum_of.
  induction ts as [| t ts IH]; cbn [total_of filter]; [reflexivity |].
  rewrite (owned_carries v k t Hc), Hpq. unfold is_type at 1.
  rewrite IH by (intros t' Ht'; apply Hw; right; exact Ht').
  destruct (belongs_to k t && (t_type t =? ty)%string && q t); [| reflexivity].
  destruct (Hw t (or_introl eq_refl)) as [n Hn].
  cbn [map fold_right]. f_equal. unfold whole_amount. rewrite Hn. reflexivity.
Qed.

(** The document of GET /api/stats. *)
Lemma get_stats_answer (db : Db) (userId : jsval) (now : Date) :
  let k := user_key userId in
  let ts := transactions db in
  get_stats db userId now =
  (db, Json 200 (BStats (mkStats
     (user_total k "income" any_date ts - user_total k "expense" any_date ts)
     (user_total k "income" (dated_from (monthStart now)) ts)
     (user_total k "expense" (dated_from (monthStart now)) ts)
     (user_total k "income" any_date ts)
     (user_total k "expense" any_date ts)))).
Proof.
  cbv zeta.
  unfold get_stats, select_total, select_total_since.
  rewrite (bind_total userId). cbn [bind rbind].
  rewrite !or_zero_sql_sum.
  assert (Hall : forall ty,
    total_of (fun t => num_col_eq (t_user_id t) (bound userId) && (t_type t =? ty)%string)
             (transactions db)
    = user_total (user_key userId) ty any_date (transactions db)).
  { intros ty. apply total_of_ext. intros t.
    rewrite num_col_eq_owned. unfold is_type, any_date. rewrite andb_true_r. reflexivity. }
  assert (Hsince : forall ty,
    total_of (fun t => num_col_eq (t_user_id t) (bound userId) && (t_type t =? ty)%string
                       && num_col_ge (t_date t) (Some (SText (monthStart now))))
             (transactions db)
    = user_total (user_key userId) ty (dated_from (monthStart now)) (transactions db)).
  { intros ty. apply total_of_ext. intros t.
    rewrite num_col_eq_owned. unfold is_type, dated_from, num_col_ge, opt_test.
    rewrite monthStart_is_text. reflexivity. }
  rewrite !Hall, !Hsince. reflexivity.
Qed.



(** C8 as written fails: in May 2024 an income dated 2025-01-01 is counted
    in monthlyIncome, although it is dated after the time of the query. *)
Lemma C8_future_income_is_counted :
  ~ monthly_sums_within_month_to_date future_income_db (JStr "1") (mkDate 2024 4 15).
Proof.
  intros H. destruct (H _ eq_refl) as [Hi _]. vm_compute in Hi. discriminate Hi.
Qed.

(** The template literal of the handler writes the first day of the
    month as the date column writes a day. *)
Lemma monthStart_is_first_day (now : Date) : monthStart now = today (first_of_month now).
Proof. reflexivity. Qed.

(** C8 (amended): for a plain user id and amounts that add without
    rounding, monthlyIncome and monthlyExpense sum exactly the
    transactions of the user whose date is not below the first day of the
    current month, in the order of the store; there is no upper end, so
    later dates, also those after the time of the query, are counted.
    For a user id that carries [k] these are the sums of the rows whose
    user_id is [k] and whose date is a text not below that day. *)
Theorem C8_monthly_sums_from_month_start (db : Db) (userId : jsval) (now : Date) :
  plain userId -> exact_amounts (transactions db) ->
  exists s,
    get_stats db userId now = (db, Json 200 (BStats s)) /\
    monthlyIncome s
    = user_total (user_key userId) "income" (dated_from (today (first_of_month now)))
                 (transactions db) /\
    monthlyExpense s
    = user_total (user_key userId) "expense" (dated_from (today (first_of_month now)))
                 (transactions db) /\
    forall k, carries userId k ->
      monthlyIncome s
      = sum_of k "income" (on_or_after (today (first_of_month now))) (transactions db) /\
      monthlyExpense s
      = sum_of k "expense" (on_or_after (today (first_of_month now))) (transactions db).
Proof.
  intros _ [Hw _]. eexists. split; [apply (get_stats_answer db userId now) |].
  rewrite <- monthStart_is_first_day. split; [reflexivity |]. split; [reflexivity |].
  intros k Hc. cbn [monthlyIncome monthlyExpense].
  split; apply (user_total_carries userId k _ _ _ _ Hc Hw); intros t;
    apply dated_from_on_or_after.
Qed.

Lemma C8_monthly_sums_from_month_start_witness :
  exists s,
    get_stats future_income_db (JStr "1") (mkDate 2024 4 15)
    = (future_income_db, Json 200 (BStats s)) /\
    monthlyIncome s = 700.
Proof.
  destruct (C8_monthly_sums_from_month_start future_income_db (JStr "1") (mkDate 2024 4 15))
    as (s & Hs & Hi & _).
  - right. exists 1. split; [apply Z.leb_le; reflexivity | reflexivity].
  - split; [intros t [<- | []]; eexists; reflexivity | apply Z.leb_le; reflexivity].
  - exists s. split; [exact Hs | exact Hi].
Defined.

(** *** Reads are scoped to the user *)

Lemma filter_andb {A} (p q : A -> bool) (xs : list A) :
  filter (fun x => p x && q x) xs = filter q (filter p xs).
Proof.
  induction xs as [| x xs IH]; simpl; [reflexivity |].
  destruct (p x); simpl; [destruct (q x) |]; rewrite IH; reflexivity.
Qed.

Lemma filter_none {A} (p : A -> bool) (xs : list A) :
  (forall x, p x = false) -> filter p xs = [].
Proof.
  intros H. induction xs as [| x xs IH]; simpl; [reflexivity |]. rewrite H. exact IH.
Qed.

(** The rows that [WHERE user_id = ?] selects are the same in two stores
    that hold the same rows for the user of the request. *)
Lemma selected_rows_agree (db1 db2 : Db) (b : option sqlval) :
  (forall u, option_map numeric_affinity b = Some u -> same_rows_for u db1 db2) ->
  filter (fun t => num_col_eq (t_user_id t) b) (transactions db1)
  = filter (fun t => num_col_eq (t_user_id t) b) (transactions db2) /\
  filter (fun g => num_col_eq (g_user_id g) b) (targets db1)
  = filter (fun g => num_col_eq (g_user_id g) b) (targets db2).
Proof.
  intros H. destruct b as [p |].
  - destruct (H _ eq_refl) as [Ht Hg]. split; [exact Ht | exact Hg].
  - split; rewrite !filter_none; reflexivity.
Qed.

(** C9: the three reads depend on the rows of the queried user only: for
    a plain user id, in two stores that hold the same transactions and
    targets for that user (and differ in the rows of the others in any
    way, added, changed or removed), the list of transactions, the list of
    targets and the statistics are the same. *)
Theorem C9_reads_see_own_rows_only (db1 db2 : Db) (userId : jsval) (now : Date) :
  plain userId ->
  (forall u, user_key userId = Some u -> same_rows_for u db1 db2) ->
  snd (list_transactions db1 userId) = snd (list_transactions db2 userId) /\
  snd (list_targets db1 userId) = snd (list_targets db2 userId) /\
  snd (get_stats db1 userId now) = snd (get_stats db2 userId now).
Proof.
  intros _ H.
  destruct (bind userId) as [b | e] eqn:Eb.
  - assert (Hb : bound userId = b) by (apply bind_bound; exact Eb).
    unfold user_key in H. rewrite Hb in H.
    destruct (selected_rows_agree db1 db2 b H) as [Ht Hg].
    unfold list_transactions, list_targets, get_stats,
      select_transactions, select_targets, select_total, select_total_since.
    rewrite Eb. cbn [bind rbind snd].
    rewrite Ht, Hg.
    rewrite !(filter_andb (fun t => num_col_eq (t_user_id t) b && _)).
    rewrite !(filter_andb (fun t => num_col_eq (t_user_id t) b)).
    rewrite Ht. repeat split; reflexivity.
  - unfold list_transactions, list_targets, get_stats,
      select_transactions, select_targets, select_total, select_total_since.
    rewrite Eb. repeat split; reflexivity.
Qed.

Lemma C9_reads_see_own_rows_only_witness :
  transactions ledger_before <> transactions ledger_after /\
  targets ledger_before <> targets ledger_after /\
  snd (list_transactions ledger_before (JStr "1"))
  = snd (list_transactions ledger_after (JStr "1")) /\
  snd (list_targets ledger_before (JStr "1")) = snd (list_targets ledger_after (JStr "1")) /\
  snd (get_stats ledger_before (JStr "1") (mkDate 2024 4 15))
  = snd (get_stats ledger_after (JStr "1") (mkDate 2024 4 15)).
Proof.
  split; [discriminate |]. split; [discriminate |].
  apply (C9_reads_see_own_rows_only ledger_before ledger_after (JStr "1") (mkDate 2024 4 15)).
  - right. exists 1. split; [apply Z.leb_le; reflexivity | reflexivity].
  - intros u Hu. injection Hu as <-. split; reflexivity.
Defined.

(** *** The partial update of a target *)

(** The two UPDATE statements, row by row, make the partial update. *)
Lemma patched_row (id : string) (saved_amount status : jsval) (g : target) :
  patched id saved_amount status g =
  let g1 := if is_defined saved_amount && names_target id g
            then set_saved_amount g (option_map numeric_affinity (bound saved_amount))
            else g in
  if is_defined status && names_target id g1
  then set_status g1 (option_map text_affinity (bound status))
  else g1.
Proof.
  destruct g. unfold patched, names_target, set_saved_amount, set_status.
  cbn [g_id g_user_id g_name g_amount g_saved_amount g_deadline g_description
       g_status g_created_at].
  destruct (is_defined saved_amount), (is_defined status), (int_literal id) as [k |];
    simpl; try reflexivity;
    destruct (k =? g_id0) eqn:E; simpl; rewrite ?E; reflexivity.
Qed.

(** C10: a PATCH /api/targets/:id whose path carries the decimal text of
    an integer, with a plain saved_amount and a status that is a string,
    null or absent, answers success and is a partial update with a frame:
    the users and the transactions are untouched, no target row is added
    or removed, only the row with that id changes, and in that row
    saved_amount and status are written only when the body supplies them;
    user_id, name, amount, deadline, description and created_at keep their
    values.  A saved_amount that carries [n] is written as the number [n],
    a status that is the string [s] as [s], and null as NULL. *)
Theorem C10_patch_is_a_framed_partial_update (db : Db) (k : Z)
  (saved_amount status : jsval) :
  plain saved_amount -> text_field status ->
  let r := update_target db (String_of k) saved_amount status in
  snd r = Json 200 BSuccess /\
  users (fst r) = users db /\ users_seq (fst r) = users_seq db /\
  transactions (fst r) = transactions db /\
  transactions_seq (fst r) = transactions_seq db /\
  targets_seq (fst r) = targets_seq db /\
  targets (fst r) = map (patched (String_of k) saved_amount status) (targets db) /\
  forall g,
    let g' := patched (String_of k) saved_amount status g in
    g_id g' = g_id g /\ g_user_id g' = g_user_id g /\ g_name g' = g_name g /\
    g_amount g' = g_amount g /\ g_deadline g' = g_deadline g /\
    g_description g' = g_description g /\ g_created_at g' = g_created_at g /\
    g_saved_amount g' = (if is_defined saved_amount && (k =? g_id g)
                         then option_map numeric_affinity (bound saved_amount)
                         else g_saved_amount g) /\
    g_status g' = (if is_defined status && (k =? g_id g)
                   then option_map text_affinity (bound status)
                   else g_status g) /\
    (if k =? g_id g then True else g' = g) /\
    (k = g_id g ->
     (forall n, carries saved_amount n -> g_saved_amount g' = Some (SInt n)) /\
     (saved_amount = JNull -> g_saved_amount g' = None) /\
     (forall s, status = JStr s -> g_status g' = Some s) /\
     (status = JNull -> g_status g' = None)).
Proof.
  intros _ _. cbv zeta.
  assert (Hn : forall g, names_target (String_of k) g = (k =? g_id g))
    by (intros g; unfold names_target; rewrite int_literal_String_of; reflexivity).
  remember (String_of k) as id eqn:Eid.
  assert (Hk : forall g, num_col_eq (SInt (g_id g)) (Some (SText id)) = names_target id g)
    by (intros g; apply num_col_eq_path).
  assert (H1 : forall d, (if is_defined saved_amount
                          then update_target_saved d saved_amount (JStr id) else Ok d)
    = Ok (with_targets d
            (map (fun g => if is_defined saved_amount && names_target id g
                           then set_saved_amount g
                                  (option_map numeric_affinity (bound saved_amount))
                           else g) (targets d)) (targets_seq d))).
  { intros d. unfold update_target_saved.
    destruct (is_defined saved_amount) eqn:Hd.
    - rewrite (bind_total saved_amount). cbn [bind rbind andb].
      f_equal. f_equal. apply map_ext. intros g. rewrite Hk. reflexivity.
    - cbn [andb]. rewrite map_id. destruct d; reflexivity. }
  assert (H2 : forall d, (if is_defined status
                          then update_target_status d status (JStr id) else Ok d)
    = Ok (with_targets d
            (map (fun g => if is_defined status && names_target id g
                           then set_status g (option_map text_affinity (bound status))
                           else g) (targets d)) (targets_seq d))).
  { intros d. unfold update_target_status.
    destruct (is_defined status) eqn:Hd.
    - rewrite (bind_total status). cbn [bind rbind andb].
      f_equal. f_equal. apply map_ext. intros g. rewrite Hk. reflexivity.
    - cbn [andb]. rewrite map_id. destruct d; reflexivity. }
  unfold update_target. rewrite H1, H2.
  cbn [fst snd users users_seq transactions transactions_seq targets targets_seq
       with_targets].
  do 6 (split; [reflexivity |]). split.
  - rewrite map_map. apply map_ext. intros g. rewrite patched_row. reflexivity.
  - intros g. cbv zeta. unfold patched. rewrite <- (Hn g).
    destruct (names_target id g) eqn:En; cbn [g_id g_user_id g_name g_amount g_saved_amount
      g_deadline g_description g_status g_created_at];
      rewrite ?andb_true_r, ?andb_false_r.
    + do 10 (split; [reflexivity |]). intros _.
      split; [| split; [| split]].
      * intros n Hc. rewrite (carries_stored _ _ Hc).
        destruct Hc as [-> | ->]; reflexivity.
      * intros ->. reflexivity.
      * intros s ->. reflexivity.
      * intros ->. reflexivity.
    + do 10 (split; [reflexivity |]). intros Hk'.
      rewrite Hn in En. subst k. rewrite Z.eqb_refl in En. discriminate En.
Qed.

Lemma C10_patch_is_a_framed_partial_update_witness :
  targets (fst (update_target one_target_db (String_of 1) (JStr "250") JUndefined))
  = map (patched (String_of 1) (JStr "250") JUndefined) (targets one_target_db).
Proof.
  apply (C10_patch_is_a_framed_partial_update one_target_db 1 (JStr "250") JUndefined).
  - right. exists 250. split; [apply Z.leb_le; reflexivity | reflexivity].
  - exact I.
Defined.

(** *** The create half of the linking rule *)

(** The tables after POST /api/transactions: refused and nothing changes,
    or one row is appended and the linking rule has run. *)
Lemma create_transaction_rows (db : Db)
  (userId type category amount description date targetId : jsval) (now : string) :
  let r := create_transaction db userId type category amount description date targetId now in
  (answered (snd r) = false /\ fst r = db) \/
  (answered (snd r) = true /\
   (type = JStr "income" \/ type = JStr "expense") /\
   targets (fst r) = (if strict_eq_str type "income" && truthy targetId
                      then map (credited targetId amount) (targets db)
                      else targets db) /\
   exists t raw,
     transactions (fst r) = (transactions db ++ [t])%list /\
     Some (t_type t) = option_map text_affinity (bound type) /\
     bound amount = Some raw /\ t_amount t = numeric_affinity raw /\
     t_target_id t = option_map numeric_affinity (bound targetId)).
Proof.
  cbv zeta. unfold create_transaction.
  destruct (insert_transaction db userId type category amount description date targetId now)
    as [[db1 id] | e] eqn:E; [right | left; split; reflexivity].
  pose proof (insert_transaction_checked _ _ _ _ _ _ _ _ _ _ _ E)
    as (_ & _ & _ & _ & _ & Hty).
  apply insert_transaction_ok in E
    as (Ha & Ht & _ & Hg & _ & _ & t & Htx & _ & _ & _ & Htype & _ & Hamt & Htgt).
  assert (Hraw : exists raw, bound amount = Some raw /\ t_amount t = numeric_affinity raw).
  { destruct (bound amount) as [raw |]; [| discriminate Hamt].
    exists raw. split; [reflexivity |]. injection Hamt as ->. reflexivity. }
  destruct Hraw as (raw & Hraw & Hamt').
  assert (Hrows : forall d, transactions d = transactions db1 ->
            exists t0 raw0,
              transactions d = (transactions db ++ [t0])%list /\
              Some (t_type t0) = option_map text_affinity (bound type) /\
              bound amount = Some raw0 /\ t_amount t0 = numeric_affinity raw0 /\
              t_target_id t0 = option_map numeric_affinity (bound targetId)).
  { intros d Hd. exists t, raw. rewrite Hd. repeat split; assumption. }
  destruct (strict_eq_str type "income" && truthy targetId).
  - rewrite (update_target_add_credits db1 _ _ Ha Ht).
    cbn [fst snd answered targets with_targets]. rewrite Hg.
    repeat split; [exact Hty | apply Hrows; reflexivity].
  - cbn [fst snd answered]. repeat split; [exact Hty | exact Hg | apply Hrows; reflexivity].
Qed.

Lemma falsy_names_zero (v : jsval) (k : Z) :
  is_defined v = true -> truthy v = false ->
  option_map numeric_affinity (bound v) = Some (SInt k) -> k = 0.
Proof.
  destruct v as [ | | n | s]; simpl; intros Hd Ht H; try discriminate.
  - apply negb_false_iff, Z.eqb_eq in Ht. injection H as <-. exact Ht.
  - apply negb_false_iff, String.eqb_eq in Ht. subst s. discriminate H.
Qed.

Lemma row_key_stored (v : jsval) (k : Z) :
  row_key v = Some k <-> option_map numeric_affinity (bound v) = Some (SInt k).
Proof.
  unfold row_key. destruct (bound v) as [p |]; simpl; [| split; discriminate].
  destruct (numeric_affinity p); split; intros H; try discriminate;
    injection H as ->; reflexivity.
Qed.

(** The create half of the linking rule keeps the invariant of the data
    model, on a store whose target ids are not 0 (the rowids start at 1). *)
Lemma create_keeps_saved_matches_links (db : Db)
  (userId type category amount description date targetId : jsval) (now : string) :
  (forall g, In g (targets db) -> g_id g <> 0) ->
  saved_matches_links db ->
  saved_matches_links
    (fst (create_transaction db userId type category amount description date targetId now)).
Proof.
  intros Hids Hinv.
  pose proof (create_transaction_rows db userId type category amount description date
                targetId now) as Hr.
  cbv zeta in Hr.
  set (r := create_transaction db userId type category amount description date targetId now)
    in *.
  destruct Hr as [[_ ->] | (Hans & Hty & Hg & t & raw & Htx & Htype & Hraw & Hamt & Htgt)];
    [exact Hinv |].
  assert (Hsum : forall gid, linked_income_sum (fst r) gid
                 = linked_income_sum db gid
                   + (if linked_income gid t then to_num raw else 0)).
  { intros gid. unfold linked_income_sum. rewrite Htx, total_of_app. simpl.
    rewrite Hamt, to_num_numeric_affinity. lia. }
  intros g' Hg'. rewrite Hsum. rewrite Hg in Hg'.
  destruct (strict_eq_str type "income" && truthy targetId) eqn:C.
  - apply andb_true_iff in C as [Hinc Htruthy].
    apply in_map_iff in Hg' as (g & <- & Hin).
    assert (Htt : t_type t = "income").
    { destruct type; simpl in Hinc; try discriminate Hinc.
      apply String.eqb_eq in Hinc. subst. simpl in Htype. injection Htype as ->. reflexivity. }
    unfold credited, linked_income. rewrite Htt, Htgt.
    change (("income" =? "income")%string) with true. cbn [andb].
    destruct (row_key targetId) as [k |] eqn:Ek.
    + apply row_key_stored in Ek. rewrite Ek.
      destruct (k =? g_id g) eqn:Eq.
      * cbn [g_id set_saved_amount g_saved_amount]. rewrite Eq.
        rewrite (Hinv g Hin), Hraw. simpl. reflexivity.
      * rewrite Eq. rewrite (Hinv g Hin). f_equal. f_equal. lia.
    + rewrite (Hinv g Hin).
      destruct (option_map numeric_affinity (bound targetId)) as [[n | s] |] eqn:En;
        try (f_equal; f_equal; lia).
      apply row_key_stored in En. rewrite En in Ek. discriminate Ek.
  - rewrite (Hinv g' Hg'). f_equal. f_equal.
    assert (Hno : linked_income (g_id g') t = false); [| rewrite Hno; lia].
    unfold linked_income. rewrite Htgt.
    apply andb_false_iff in C as [Hinc | Htruthy].
    + destruct Hty as [-> | ->]; [discriminate Hinc |].
      simpl in Htype. injection Htype as ->. reflexivity.
    + destruct (option_map numeric_affinity (bound targetId)) as [[n | s] |] eqn:En;
        rewrite ?andb_false_r; try reflexivity.
      assert (Hdef : is_defined targetId = true).
      { destruct targetId; try reflexivity. discriminate En. }
      pose proof (falsy_names_zero _ _ Hdef Htruthy En) as ->.
      destruct (0 =? g_id g') eqn:Ez; [| apply andb_false_r].
      apply Z.eqb_eq in Ez. exfalso. apply (Hids g' Hg'). symmetry. exact Ez.
Qed.

(** ** Further properties of the server *)

(** *** What each handler writes *)

(** A request is refused and the store is unchanged, or one row is
    appended to the transactions and the targets keep their ids and owners. *)
Lemma create_transaction_effect (db : Db)
  (userId type category amount description date targetId : jsval) (now : string) :
  let r := create_transaction db userId type category amount description date targetId now in
  (answered (snd r) = false /\ fst r = db) \/
  (exists t f,
     snd r = Json 200 (BId (t_id t)) /\
     (forall g, g_id (f g) = g_id g /\ g_user_id (f g) = g_user_id g) /\
     users (fst r) = users db /\ users_seq (fst r) = users_seq db /\
     targets (fst r) = map f (targets db) /\ targets_seq (fst r) = targets_seq db /\
     transactions (fst r) = (transactions db ++ [t])%list /\
     transactions_seq (fst r) = transactions_seq db + 1 /\
     foreign_keys (fst r) = foreign_keys db /\
     t_id t = transactions_seq db + 1 /\
     (t_type t = "income" \/ t_type t = "expense") /\
     Some (t_user_id t) = user_key userId /\
     fk_ok (foreign_keys db) (map u_id (users db)) (Some (t_user_id t)) = true /\
     fk_ok (foreign_keys db) (map g_id (targets db)) (t_target_id t) = true).
Proof.
  cbv zeta. unfold create_transaction.
  destruct (insert_transaction db userId type category amount description date targetId now)
    as [[db1 id] | e] eqn:E; [right | left; split; reflexivity].
  pose proof (insert_transaction_ok _ _ _ _ _ _ _ _ _ _ _ E) as (Ha & Ht & _).
  assert (Hinv : exists t,
    db1 = with_transactions db (transactions db ++ [t]) (transactions_seq db + 1) /\
    id = t_id t /\ t_id t = transactions_seq db + 1 /\
    (t_type t = "income" \/ t_type t = "expense") /\
    Some (t_user_id t) = user_key userId /\
    fk_ok (foreign_keys db) (map u_id (users db)) (Some (t_user_id t)) = true /\
    fk_ok (foreign_keys db) (map g_id (targets db)) (t_target_id t) = true).
  { unfold insert_transaction in E. inv_rbind E. injection E as <- <-.
    repeat match goal with G : guard _ _ = Ok _ |- _ => apply guard_ok in G end.
    eexists. split; [reflexivity |]. cbn [t_id t_type t_user_id t_target_id].
    repeat split; try assumption.
    - match goal with G : (_ || _) = true |- _ =>
        apply orb_true_iff in G as [G | G]; apply String.eqb_eq in G; auto end.
    - unfold user_key.
      match goal with B : bind userId = Ok _ |- _ => rewrite (bind_bound _ _ B) end.
      match goal with N : not_null (option_map numeric_affinity ?o) = Ok ?c,
                      B : bind userId = Ok ?o |- _ =>
        destruct o; simpl in N; [injection N as <-; reflexivity | discriminate N] end. }
  destruct Hinv as (t & -> & -> & Hid & Hty & Hu & Hfu & Hft).
  destruct (strict_eq_str type "income" && truthy targetId).
  - rewrite (update_target_add_credits _ _ _ Ha Ht).
    exists t, (credited targetId amount). cbn.
    repeat split; auto;
      unfold credited; destruct (row_key targetId) as [k |]; try reflexivity;
      destruct (k =? g_id g); reflexivity.
  - exists t, (fun g => g). cbn. rewrite map_id. repeat split; auto.
Qed.

(** POST /api/auth/register: refused and the store is unchanged, or one
    user row with a new email is appended. *)
Lemma register_effect (db : Db) (name email password : jsval) (now : string) :
  let r := register db name email password now in
  (snd r = Json 400 (BError "Email already exists") /\ fst r = db) \/
  (exists u,
     snd r = Json 200 (BRegistered (u_id u) name email) /\
     fst r = with_users db (users db ++ [u]) (users_seq db + 1) /\
     u_id u = users_seq db + 1 /\
     Some (u_email u) = option_map text_affinity (bound email) /\
     Some (u_password u) = option_map text_affinity (bound password) /\
     ~ In (u_email u) (map u_email (users db))).
Proof.
  cbv zeta. unfold register.
  destruct (insert_user db name email password now) as [[db1 id] | e] eqn:E;
    [right | left; split; reflexivity].
  unfold insert_user in E. inv_rbind E. injection E as <- <-.
  match goal with G : guard _ _ = Ok _ |- _ =>
    apply guard_ok in G; apply negb_true_iff in G; rename G into Hg end.
  repeat match goal with B : bind _ = Ok _ |- _ => apply bind_bound in B; subst end.
  assert (NN : forall o c, not_null (option_map text_affinity o) = Ok c ->
                         Some c = option_map text_affinity o).
  { intros [v |] c N; simpl in N; [injection N as <-; reflexivity | discriminate N]. }
  eexists. cbn [fst snd u_id u_email u_password].
  repeat split; try (apply NN; assumption); try reflexivity.
  cbn [u_email]. intros Hin. apply in_map_iff in Hin as (u & Hu & Hin).
  match type of Hg with existsb ?f _ = false =>
    assert (Hex : existsb f (users db) = true)
      by (apply existsb_exists; exists u; split; [exact Hin | apply String.eqb_eq; exact Hu])
  end.
  rewrite Hg in Hex. discriminate Hex.
Qed.

(** POST /api/targets: refused and the store is unchanged, or one target
    row with nothing saved and the status active is appended. *)
Lemma create_target_effect (db : Db) (userId name amount deadline description : jsval)
  (now : string) :
  let r := create_target db userId name amount deadline description now in
  (answered (snd r) = false /\ fst r = db) \/
  (exists g,
     snd r = Json 200 (BId (g_id g)) /\
     fst r = with_targets db (targets db ++ [g]) (targets_seq db + 1) /\
     g_id g = targets_seq db + 1 /\
     Some (g_user_id g) = user_key userId /\
     g_saved_amount g = Some (SInt 0) /\ g_status g = Some "active" /\
     fk_ok (foreign_keys db) (map u_id (users db)) (Some (g_user_id g)) = true).
Proof.
  cbv zeta. unfold create_target.
  destruct (insert_target db userId name amount deadline description now)
    as [[db1 id] | e] eqn:E; [right | left; split; reflexivity].
  unfold insert_target in E. inv_rbind E. injection E as <- <-.
  repeat match goal with G : guard _ _ = Ok _ |- _ => apply guard_ok in G end.
  repeat match goal with B : bind _ = Ok _ |- _ => apply bind_bound in B; subst end.
  assert (NN : forall o c, not_null (option_map numeric_affinity o) = Ok c ->
                         Some c = option_map numeric_affinity o).
  { intros [v |] c N; simpl in N; [injection N as <-; reflexivity | discriminate N]. }
  eexists. cbn [fst snd g_id g_user_id g_saved_amount g_status].
  repeat split; try assumption; try reflexivity.
  unfold user_key. apply NN. assumption.
Qed.

(** The reads answer from the store and leave it as it is. *)
Lemma reads_keep_the_store (db : Db) (req : request) :
  match req with
  | PostLogin _ _ | GetTransactions _ | GetTargets _ | GetStats _ _ => fst (serve db req) = db
  | _ => True
  end.
Proof.
  destruct req; try exact I; simpl.
  - unfold login. destruct (select_user db email password) as [[u |] | e]; reflexivity.
  - unfold list_transactions. destruct (select_transactions db userId); reflexivity.
  - unfold list_targets. destruct (select_targets db userId); reflexivity.
  - unfold get_stats.
    match goal with |- fst (match ?x with _ => _ end) = _ => destruct x end; reflexivity.
Qed.

(** The first UPDATE of the PATCH handler, when it runs and when not. *)
Lemma update_saved_step (db : Db) (id : string) (saved_amount : jsval) :
  (if is_defined saved_amount
   then update_target_saved db saved_amount (JStr id) else Ok db)
  = Ok (with_targets db
          (map (fun g => if is_defined saved_amount && names_target id g
                         then set_saved_amount g
                                (option_map numeric_affinity (bound saved_amount))
                         else g) (targets db)) (targets_seq db)).
Proof.
  unfold update_target_saved.
  destruct (is_defined saved_amount) eqn:Hd.
  - rewrite (bind_defined _ Hd). cbn [bind rbind andb].
    f_equal. f_equal. apply map_ext. intros g. rewrite num_col_eq_path. reflexivity.
  - cbn [andb]. rewrite map_id. destruct db; reflexivity.
Qed.

(** The second UPDATE of the PATCH handler. *)
Lemma update_status_step (db : Db) (id : string) (status : jsval) :
  (if is_defined status
   then update_target_status db status (JStr id) else Ok db)
  = Ok (with_targets db
          (map (fun g => if is_defined status && names_target id g
                         then set_status g (option_map text_affinity (bound status))
                         else g) (targets db)) (targets_seq db)).
Proof.
  unfold update_target_status.
  destruct (is_defined status) eqn:Hd.
  - rewrite (bind_defined _ Hd). cbn [bind rbind andb].
    f_equal. f_equal. apply map_ext. intros g. rewrite num_col_eq_path. reflexivity.
  - cbn [andb]. rewrite map_id. destruct db; reflexivity.
Qed.

(** PATCH /api/targets/:id rewrites target rows in place: ids and owners
    stay. *)
Lemma update_target_effect (db : Db) (id : string) (saved_amount status : jsval) :
  (forall g, g_id (patched id saved_amount status g) = g_id g /\
             g_user_id (patched id saved_amount status g) = g_user_id g) /\
  update_target db id saved_amount status
  = (with_targets db (map (patched id saved_amount status) (targets db)) (targets_seq db),
     Json 200 BSuccess).
Proof.
  split.
  { intros g. unfold patched. destruct (names_target id g); split; reflexivity. }
  unfold update_target. rewrite update_saved_step, update_status_step.
  cbn [targets targets_seq with_targets users users_seq transactions transactions_seq
       foreign_keys].
  f_equal. unfold with_targets. f_equal.
  rewrite map_map. apply map_ext. intros g. rewrite patched_row. reflexivity.
Qed.

(** *** The rowids *)

Lemma NoDup_map_filter {A B} (f : A -> B) (p : A -> bool) (xs : list A) :
  NoDup (map f xs) -> NoDup (map f (filter p xs)).
Proof.
  induction xs as [| x xs IH]; simpl; intros H; [constructor |].
  inversion H as [| ? ? Hn Hd]; subst.
  destruct (p x); simpl; [constructor |]; auto.
  intros Hin. apply Hn. apply in_map_iff in Hin as (y & Hy & Hin).
  apply in_map_iff. exists y. split; [exact Hy |]. apply filter_In in Hin. tauto.
Qed.

Lemma ids_ok_snoc (ids : list Z) (seq : Z) :
  ids_ok ids seq -> ids_ok (ids ++ [seq + 1]) (seq + 1).
Proof.
  intros (H0 & Hnd & Hb). split; [lia |]. split.
  - apply NoDup_app; [exact Hnd | repeat constructor; intros [] |].
    intros k Hk [<- | []]. specialize (Hb _ Hk). lia.
  - intros k Hk. apply in_app_or in Hk as [Hk | [<- | []]]; [specialize (Hb _ Hk) |]; lia.
Qed.

Lemma ids_ok_filter {A} (f : A -> Z) (p : A -> bool) (xs : list A) (seq : Z) :
  ids_ok (map f xs) seq -> ids_ok (map f (filter p xs)) seq.
Proof.
  intros (H0 & Hnd & Hb). split; [exact H0 |]. split; [apply NoDup_map_filter; exact Hnd |].
  intros k Hk. apply Hb. apply in_map_iff in Hk as (y & Hy & Hin).
  apply in_map_iff. exists y. split; [exact Hy |]. apply filter_In in Hin. tauto.
Qed.

Lemma map_id_preserved {A} (key : target -> A) (f : target -> target) (gs : list target) :
  (forall g, key (f g) = key g) -> map key (map f gs) = map key gs.
Proof. intros H. rewrite map_map. apply map_ext. exact H. Qed.

(** Every handler keeps the rowids distinct, positive and below the
    counters. *)
Lemma serve_keeps_ids (db : Db) (req : request) :
  wf_ids db -> wf_ids (fst (serve db req)).
Proof.
  intros Hwf. pose proof Hwf as (Hu & Hg & Ht).
  pose proof (reads_keep_the_store db req) as Hread.
  destruct req; try (rewrite Hread; exact Hwf); clear Hread; cbn [serve].
  - destruct (register_effect db name email password now)
      as [[_ ->] | (u & _ & -> & Hid & _)]; [exact Hwf |].
    split; [| split; assumption].
    cbn [users users_seq with_users]. rewrite map_app. cbn [map]. rewrite Hid.
    apply ids_ok_snoc. exact Hu.
  - destruct (create_transaction_effect db userId type category amount description date
                targetId now)
      as [[_ ->] | (t & f & _ & Hf & Hus & Huq & Hgs & Hgq & Hts & Htq & _ & Hid & _)];
      [exact Hwf |].
    split; [rewrite Hus, Huq; exact Hu |].
    split.
    + rewrite Hgs, Hgq, map_id_preserved; [exact Hg | intros g; apply Hf].
    + rewrite Hts, Htq, map_app. cbn [map]. rewrite Hid. apply ids_ok_snoc. exact Ht.
  - unfold delete_transaction, delete_transaction_row.
    cbn [bind rbind fst users users_seq targets targets_seq transactions transactions_seq
         with_transactions].
    split; [exact Hu |]. split; [exact Hg |]. apply (ids_ok_filter _ _ _ _ Ht).
  - destruct (create_target_effect db userId name amount deadline description now)
      as [[_ ->] | (g & _ & -> & Hid & _)]; [exact Hwf |].
    split; [exact Hu |]. split; [| exact Ht].
    cbn [targets targets_seq with_targets]. rewrite map_app. cbn [map]. rewrite Hid.
    apply ids_ok_snoc. exact Hg.
  - destruct (update_target_effect db id saved_amount status) as [Hf ->].
    split; [exact Hu |]. split; [| exact Ht].
    cbn [fst targets targets_seq with_targets].
    rewrite map_id_preserved; [exact Hg | intros g; apply Hf].
Qed.

Lemma run_keeps {P : Db -> Prop} (reqs : list request) :
  (forall db req, P db -> P (fst (serve db req))) ->
  forall db, P db -> P (run db reqs).
Proof.
  intros Hstep. induction reqs as [| req reqs IH]; intros db H; [exact H |].
  apply IH, Hstep, H.
Qed.

(** X1: on every store that the server reaches from the fresh database,
    the rowids of each table are distinct, positive and not above the
    AUTOINCREMENT counter of the table. *)
Theorem reachable_ids_are_distinct (fk : bool) (reqs : list request) :
  wf_ids (run (empty_db fk) reqs).
Proof.
  apply (run_keeps reqs serve_keeps_ids).
  assert (H : ids_ok [] 0) by (split; [lia | split; [constructor | intros k []]]).
  split; [exact H |]. split; exact H.
Qed.

(** *** One step of the server, table by table *)

(** What a request can do to the three tables: the users grow by a row
    with a new email or stay; the target rows are rewritten in place,
    keeping id and owner, and at most one row is appended; the
    transactions stay, lose rows or grow by one checked row. *)
Lemma serve_step (db : Db) (req : request) :
  let db' := fst (serve db req) in
  foreign_keys db' = foreign_keys db /\
  (users db' = users db \/
   exists u, users db' = (users db ++ [u])%list /\
             ~ In (u_email u) (map u_email (users db))) /\
  (exists f, (forall g, g_id (f g) = g_id g /\ g_user_id (f g) = g_user_id g) /\
     (targets db' = map f (targets db) \/
      exists g, targets db' = (map f (targets db) ++ [g])%list /\
                g_id g = targets_seq db + 1 /\
                g_saved_amount g = Some (SInt 0) /\
                fk_ok (foreign_keys db) (map u_id (users db)) (Some (g_user_id g)) = true)) /\
  (transactions db' = transactions db \/
   (exists p, transactions db' = filter p (transactions db)) \/
   exists t, transactions db' = (transactions db ++ [t])%list /\
             (t_type t = "income" \/ t_type t = "expense") /\
             fk_ok (foreign_keys db) (map u_id (users db)) (Some (t_user_id t)) = true /\
             fk_ok (foreign_keys db) (map g_id (targets db)) (t_target_id t) = true).
Proof.
  cbv zeta.
  assert (Hsame : forall d, d = db ->
    foreign_keys d = foreign_keys db /\
    (users d = users db \/
     exists u, users d = (users db ++ [u])%list /\
               ~ In (u_email u) (map u_email (users db))) /\
    (exists f, (forall g, g_id (f g) = g_id g /\ g_user_id (f g) = g_user_id g) /\
       (targets d = map f (targets db) \/
        exists g, targets d = (map f (targets db) ++ [g])%list /\
                  g_id g = targets_seq db + 1 /\
                  g_saved_amount g = Some (SInt 0) /\
                  fk_ok (foreign_keys db) (map u_id (users db)) (Some (g_user_id g)) = true)) /\
    (transactions d = transactions db \/
     (exists p, transactions d = filter p (transactions db)) \/
     exists t, transactions d = (transactions db ++ [t])%list /\
               (t_type t = "income" \/ t_type t = "expense") /\
               fk_ok (foreign_keys db) (map u_id (users db)) (Some (t_user_id t)) = true /\
               fk_ok (foreign_keys db) (map g_id (targets db)) (t_target_id t) = true)).
  { intros d ->. split; [reflexivity |]. split; [left; reflexivity |].
    split; [| left; reflexivity].
    exists (fun g => g). split; [split; reflexivity |]. left. symmetry. apply map_id. }
  pose proof (reads_keep_the_store db req) as Hread.
  destruct req; try (apply Hsame; exact Hread); clear Hread; cbn [serve].
  - destruct (register_effect db name email password now)
      as [[_ Hdb] | (u & _ & -> & _ & _ & _ & Hnew)]; [apply Hsame; exact Hdb |].
    cbn [fst users targets transactions foreign_keys with_users].
    split; [reflexivity |]. split; [right; exists u; split; [reflexivity | exact Hnew] |].
    split; [| left; reflexivity].
    exists (fun g => g). split; [split; reflexivity |]. left. symmetry. apply map_id.
  - destruct (create_transaction_effect db userId type category amount description date
                targetId now)
      as [[_ Hdb] | (t & f & _ & Hf & Hus & _ & Hgs & _ & Hts & _ & Hfk & _ & Hty & _ & Hfu & Hft)];
      [apply Hsame; exact Hdb |].
    split; [exact Hfk |]. split; [left; exact Hus |].
    split; [exists f; split; [exact Hf | left; exact Hgs] |].
    right. right. exists t. repeat split; assumption.
  - unfold delete_transaction, delete_transaction_row.
    cbn [bind rbind fst users targets transactions foreign_keys with_transactions].
    split; [reflexivity |]. split; [left; reflexivity |].
    split; [| right; left; eexists; reflexivity].
    exists (fun g => g). split; [split; reflexivity |]. left. symmetry. apply map_id.
  - destruct (create_target_effect db userId name amount deadline description now)
      as [[_ Hdb] | (g & _ & -> & Hid & _ & Hsaved & _ & Hfu)]; [apply Hsame; exact Hdb |].
    cbn [fst users targets transactions foreign_keys with_targets].
    split; [reflexivity |]. split; [left; reflexivity |].
    split; [| left; reflexivity].
    exists (fun g => g). split; [split; reflexivity |]. right. exists g.
    rewrite map_id. repeat split; assumption.
  - destruct (update_target_effect db id saved_amount status) as [Hf ->].
    cbn [fst users targets transactions foreign_keys with_targets].
    split; [reflexivity |]. split; [left; reflexivity |].
    split; [| left; reflexivity].
    exists (patched id saved_amount status). split; [exact Hf | left; reflexivity].
Qed.

(** *** Emails, types and references *)

Lemma serve_keeps_emails (db : Db) (req : request) :
  unique_emails db -> unique_emails (fst (serve db req)).
Proof.
  unfold unique_emails. intros H.
  destruct (serve_step db req) as (_ & [-> | (u & -> & Hnew)] & _); [exact H |].
  rewrite map_app. cbn [map].
  apply NoDup_app; [exact H | repeat constructor; intros [] |].
  intros e He [<- | []]. exact (Hnew He).
Qed.

(** X2: on every store that the server reaches from the fresh database no
    two users have the same email. *)
Theorem reachable_emails_are_unique (fk : bool) (reqs : list request) :
  unique_emails (run (empty_db fk) reqs).
Proof.
  apply (run_keeps reqs serve_keeps_emails). constructor.
Qed.

Lemma serve_keeps_types (db : Db) (req : request) :
  types_checked db -> types_checked (fst (serve db req)).
Proof.
  unfold types_checked. intros H.
  destruct (serve_step db req)
    as (_ & _ & _ & [-> | [(p & ->) | (t & -> & Hty & _)]]); [exact H | |].
  - intros t Ht. apply H. apply filter_In in Ht. tauto.
  - intros t' Ht'. apply in_app_or in Ht' as [Ht' | [<- | []]]; [apply H; exact Ht' | exact Hty].
Qed.

(** X3: on every store that the server reaches from the fresh database
    the type of every transaction is income or expense. *)
Theorem reachable_types_are_checked (fk : bool) (reqs : list request) :
  types_checked (run (empty_db fk) reqs).
Proof.
  apply (run_keeps reqs serve_keeps_types). intros t [].
Qed.

Lemma fk_ok_refers (ids : list Z) (v : sqlval) :
  fk_ok true ids (Some v) = true -> refers_to ids v.
Proof.
  unfold fk_ok. cbn [negb orb]. destruct v as [n | s]; [| discriminate].
  intros H. apply existsb_exists in H as (k & Hk & E). apply Z.eqb_eq in E. subst k.
  exists n. split; [reflexivity | exact Hk].
Qed.

Lemma refers_to_incl (ids ids' : list Z) (v : sqlval) :
  incl ids ids' -> refers_to ids v -> refers_to ids' v.
Proof. intros Hi (k & -> & Hk). exists k. split; [reflexivity | apply Hi; exact Hk]. Qed.

Lemma serve_keeps_references (db : Db) (req : request) :
  foreign_keys db = true /\ fk_integrity db ->
  foreign_keys (fst (serve db req)) = true /\ fk_integrity (fst (serve db req)).
Proof.
  intros (Hfk & Hg & Ht).
  destruct (serve_step db req) as (Hfk' & Hu' & (f & Hf & Hg') & Ht').
  rewrite Hfk in *. split; [exact Hfk' |].
  assert (Hui : incl (map u_id (users db)) (map u_id (users (fst (serve db req))))).
  { destruct Hu' as [-> | (u & -> & _)]; [apply incl_refl |].
    rewrite map_app. apply incl_appl, incl_refl. }
  assert (Hgi : incl (map g_id (targets db)) (map g_id (targets (fst (serve db req))))).
  { destruct Hg' as [-> | (g & -> & _)].
    - rewrite map_id_preserved; [apply incl_refl | intros g; apply Hf].
    - rewrite map_app, map_id_preserved; [apply incl_appl, incl_refl | intros g0; apply Hf]. }
  split.
  - intros g Hin. apply (refers_to_incl _ _ _ Hui).
    destruct Hg' as [E | (g0 & E & _ & _ & Hfu)]; rewrite E in Hin.
    + apply in_map_iff in Hin as (g1 & <- & Hin). rewrite (proj2 (Hf g1)). apply Hg, Hin.
    + apply in_app_or in Hin as [Hin | [<- | []]].
      * apply in_map_iff in Hin as (g1 & <- & Hin). rewrite (proj2 (Hf g1)). apply Hg, Hin.
      * apply fk_ok_refers, Hfu.
  - intros t Hin.
    assert (Hold : forall t0, In t0 (transactions db) ->
              refers_to (map u_id (users (fst (serve db req)))) (t_user_id t0) /\
              forall v, t_target_id t0 = Some v ->
                refers_to (map g_id (targets (fst (serve db req)))) v).
    { intros t0 Ht0. destruct (Ht t0 Ht0) as [Hu0 Hv0]. split.
      - apply (refers_to_incl _ _ _ Hui), Hu0.
      - intros v Hv. apply (refers_to_incl _ _ _ Hgi), (Hv0 v Hv). }
    destruct Ht' as [E | [(p & E) | (t1 & E & _ & Hfu & Hft)]]; rewrite E in Hin.
    + apply Hold, Hin.
    + apply Hold. apply filter_In in Hin. tauto.
    + apply in_app_or in Hin as [Hin | [<- | []]]; [apply Hold, Hin |]. split.
      * apply (refers_to_incl _ _ _ Hui), fk_ok_refers, Hfu.
      * intros v Hv. rewrite Hv in Hft.
        apply (refers_to_incl _ _ _ Hgi), fk_ok_refers, Hft.
Qed.

(** X4: with the foreign keys enforced, on every store that the server
    reaches from the fresh database the owner of every target and of every
    transaction is a user row, and the target id of every transaction is
    NULL or the id of a target row. *)
Theorem reachable_references_resolve (reqs : list request) :
  fk_integrity (run (empty_db true) reqs).
Proof.
  apply (run_keeps (P := fun db => foreign_keys db = true /\ fk_integrity db) reqs
           serve_keeps_references).
  split; [reflexivity |]. split; [intros g [] | intros t []].
Qed.

(** *** The linking invariant without deletes and PATCHes *)

Lemma saved_matches_links_ext (db db' : Db) :
  targets db' = targets db -> transactions db' = transactions db ->
  saved_matches_links db -> saved_matches_links db'.
Proof.
  unfold saved_matches_links, linked_income_sum. intros -> -> H. exact H.
Qed.

(** A target that no transaction refers to has no linked income. *)
Lemma fresh_target_has_no_links (db : Db) (gid : Z) :
  (forall t v, In t (transactions db) -> t_target_id t = Some v ->
     refers_to (map g_id (targets db)) v) ->
  ~ In gid (map g_id (targets db)) ->
  linked_income_sum db gid = 0.
Proof.
  intros Href Hfresh. unfold linked_income_sum. apply total_of_none.
  intros t Ht. unfold linked_income.
  destruct (t_target_id t) as [[n | s] |] eqn:E; rewrite ?andb_false_r; try reflexivity.
  destruct (n =? gid) eqn:En; [| apply andb_false_r].
  apply Z.eqb_eq in En. subst n. exfalso. apply Hfresh.
  destruct (Href t _ Ht E) as (k & Hk & Hin). injection Hk as ->. exact Hin.
Qed.

Lemma serve_keeps_links (db : Db) (req : request) :
  keeps_links req = true ->
  foreign_keys db = true /\ fk_integrity db /\ wf_ids db /\ saved_matches_links db ->
  saved_matches_links (fst (serve db req)).
Proof.
  intros Hk (Hfk & Hint & Hwf & Hinv).
  pose proof (reads_keep_the_store db req) as Hread.
  destruct req; try discriminate Hk; try (rewrite Hread; exact Hinv); clear Hread; cbn [serve].
  - destruct (register_effect db name email password now)
      as [[_ ->] | (u & _ & -> & _)]; [exact Hinv |].
    apply (saved_matches_links_ext db); [reflexivity | reflexivity | exact Hinv].
  - apply create_keeps_saved_matches_links; [| exact Hinv].
    intros g Hg. destruct Hwf as (_ & (_ & _ & Hb) & _).
    specialize (Hb (g_id g) (in_map g_id _ _ Hg)). lia.
  - destruct (create_target_effect db userId name amount deadline description now)
      as [[_ ->] | (g & _ & -> & Hid & _ & Hsaved & _)]; [exact Hinv |].
    assert (Hfresh : ~ In (g_id g) (map g_id (targets db))).
    { intros Hin. destruct Hwf as (_ & (_ & _ & Hb) & _). specialize (Hb _ Hin). lia. }
    intros g' Hg'. cbn [fst targets with_targets] in Hg'.
    unfold linked_income_sum. cbn [fst transactions with_targets].
    apply in_app_or in Hg' as [Hg' | [<- | []]]; [apply Hinv; exact Hg' |].
    rewrite Hsaved. f_equal. f_equal. symmetry.
    apply (fresh_target_has_no_links db); [| exact Hfresh].
    intros t v Ht Hv. destruct Hint as [_ Hint]. exact (proj2 (Hint t Ht) v Hv).
Qed.

(** X5: with the foreign keys enforced and as long as no transaction is
    deleted and no target is PATCHed, every target holds the sum of the
    income linked to it: the creates keep the running total right.  The
    ids and amounts of the creates are plain, the fields of the
    registrations are not numbers, and the amounts together stay within
    the bound up to which they add without rounding. *)
Theorem links_hold_without_delete_and_patch (reqs : list request) :
  forallb keeps_links reqs = true ->
  Forall plain_request reqs ->
  requested_total reqs <= exact_bound ->
  saved_matches_links (run (empty_db true) reqs).
Proof.
  intros Hk _ _.
  assert (H : forall db,
    foreign_keys db = true /\ fk_integrity db /\ wf_ids db /\ saved_matches_links db ->
    foreign_keys (run db reqs) = true /\ fk_integrity (run db reqs) /\
    wf_ids (run db reqs) /\ saved_matches_links (run db reqs)).
  { induction reqs as [| req reqs IH]; intros db Hdb; [exact Hdb |].
    cbn [forallb] in Hk. apply andb_true_iff in Hk as [Hk1 Hk2].
    apply (IH Hk2).
    destruct Hdb as (Hfk & Hint & Hwf & Hinv).
    destruct (serve_keeps_references db req (conj Hfk Hint)) as [Hfk' Hint'].
    pose proof (serve_keeps_ids db req Hwf) as Hwf'.
    pose proof (serve_keeps_links db req Hk1 (conj Hfk (conj Hint (conj Hwf Hinv)))) as Hinv'.
    exact (conj Hfk' (conj Hint' (conj Hwf' Hinv'))). }
  apply H.
  assert (Hids : ids_ok [] 0) by (split; [lia | split; [constructor | intros k []]]).
  split; [reflexivity |]. split; [split; [intros g [] | intros t []] |].
  split; [split; [exact Hids | split; exact Hids] | intros g []].
Qed.

Lemma links_hold_without_delete_and_patch_witness :
  saved_matches_links
    (run (empty_db true)
       [PostRegister (JStr "Dika") (JStr "dika@example.com") (JStr "pw") "2024-05-01 08:00:00";
        PostTargets (JNum 1) (JStr "Laptop") (JNum 1000000) JNull JNull "2024-05-01 08:01:00";
        PostTransactions (JNum 1) (JStr "income") (JStr "Gaji") (JStr "400000") JNull
                         (JStr "2024-05-02") (JStr "1") "2024-05-02 09:00:00";
        GetStats (JStr "1") (mkDate 2024 4 15)]).
Proof.
  apply links_hold_without_delete_and_patch.
  - reflexivity.
  - constructor; [exact (conj I (conj I I)) |].
    constructor; [unfold plain; apply Z.leb_le; reflexivity |].
    constructor; [| constructor; [exact I | constructor]].
    split; [unfold plain; apply Z.leb_le; reflexivity |].
    split; right; [exists 400000 | exists 1];
      (split; [apply Z.leb_le; reflexivity | reflexivity]).
  - apply Z.leb_le. reflexivity.
Defined.

(** *** Login *)

Lemma find_app_found {A} (p : A -> bool) (xs ys : list A) (x : A) :
  find p xs = Some x -> find p (xs ++ ys) = Some x.
Proof.
  induction xs as [| y xs IH]; simpl; [discriminate |].
  destruct (p y); [trivial | exact IH].
Qed.

Lemma find_snoc_first {A} (p : A -> bool) (xs : list A) (x : A) :
  (forall y, In y xs -> p y = false) -> p x = true -> find p (xs ++ [x]) = Some x.
Proof.
  intros Hn Hx. induction xs as [| y xs IH]; simpl; [rewrite Hx; reflexivity |].
  rewrite (Hn y (or_introl eq_refl)). apply IH. intros z Hz. apply Hn. right. exact Hz.
Qed.

(** The users table only grows, at its end. *)
Lemma run_extends_users (reqs : list request) : forall db,
  exists more, users (run db reqs) = (users db ++ more)%list.
Proof.
  induction reqs as [| req reqs IH]; intros db.
  - exists []. symmetry. apply app_nil_r.
  - destruct (IH (fst (serve db req))) as (more & E). cbn [run fold_left] in *.
    unfold run in E. rewrite E.
    destruct (serve_step db req) as (_ & [-> | (u & -> & _)] & _).
    + exists more. reflexivity.
    + exists (u :: more). rewrite <- app_assoc. reflexivity.
Qed.

(** X6: for an email and a password that are strings, null or absent, a
    login answers with a user row only if that row is in the store and
    the email and the password of the request are strings, the ones that
    the row holds; a null or absent email or password never logs in. *)
Theorem login_is_sound (db : Db) (email password : jsval) (u : user) :
  text_field email -> text_field password ->
  snd (login db email password) = Json 200 (BUser u) ->
  In u (users db) /\ email = JStr (u_email u) /\ password = JStr (u_password u).
Proof.
  intros He Hp. unfold login, select_user.
  rewrite (bind_total email), (bind_total password). cbn [rbind].
  destruct (find _ (users db)) as [u' |] eqn:Ef; [| discriminate].
  cbn [snd]. intros H. injection H as ->.
  apply find_some in Ef as [Hin Hm]. apply andb_true_iff in Hm as [Hme Hmp].
  split; [exact Hin |].
  destruct email as [| | n | s]; cbn in He, Hme; try discriminate Hme; [contradiction |].
  destruct password as [| | n | w]; cbn in Hp, Hmp; try discriminate Hmp; [contradiction |].
  apply String.eqb_eq in Hme, Hmp. subst. split; reflexivity.
Qed.

Lemma login_is_sound_witness :
  In (mkUser 1 "Dika" "dika@example.com" "pw" None "2024-05-01 08:00:00")
     (users one_target_db).
Proof.
  apply (login_is_sound one_target_db (JStr "dika@example.com") (JStr "pw")).
  - exact I.
  - exact I.
  - reflexivity.
Defined.

(** X7: an account stays: after a registration went through, a login with
    the same email and password answers with the registered user, at once
    and after any further requests to the server. *)
Theorem register_then_login (db db1 : Db) (name email password : jsval) (now : string)
  (id : Z) (reqs : list request) :
  register db name email password now = (db1, Json 200 (BRegistered id name email)) ->
  exists u,
    login (run db1 reqs) email password = (run db1 reqs, Json 200 (BUser u)) /\
    u_id u = id /\ In u (users db1).
Proof.
  intros Hreg.
  destruct (register_effect db name email password now)
    as [[Hs _] | (u & Hs & Hdb & Hid & He & Hp & Hnew)];
    rewrite Hreg in *; cbn [fst snd] in *; [discriminate Hs |].
  injection Hs as Hid'. subst db1.
  exists u. split; [| split; [congruence |]].
  2:{ cbn [users with_users]. apply in_or_app. right. left. reflexivity. }
  destruct (run_extends_users reqs (with_users db (users db ++ [u]) (users_seq db + 1)))
    as (more & Hmore).
  cbn [users with_users] in Hmore.
  unfold login, select_user.
  destruct (bound email) as [ve |] eqn:Eve; [| discriminate He].
  destruct (bound password) as [vp |] eqn:Evp; [| discriminate Hp].
  assert (Hde : is_defined email = true) by (destruct email; try reflexivity; discriminate Eve).
  assert (Hdp : is_defined password = true)
    by (destruct password; try reflexivity; discriminate Evp).
  rewrite (bind_defined _ Hde), (bind_defined _ Hdp), Eve, Evp. cbn [rbind].
  rewrite Hmore.
  erewrite find_app_found; [reflexivity |].
  apply find_snoc_first.
  - intros y Hy. apply andb_false_iff. left.
    unfold text_col_eq, opt_test. apply String.eqb_neq. intros E.
    apply Hnew. cbn [option_map] in He. injection He as ->. rewrite <- E.
    apply in_map. exact Hy.
  - cbn [option_map] in He, Hp. injection He as He. injection Hp as Hp.
    unfold text_col_eq, opt_test. rewrite He, Hp, !String.eqb_refl. reflexivity.
Qed.

Lemma register_then_login_witness :
  exists u,
    login (run (fst (register (empty_db true) (JStr "Dika") (JStr "dika@example.com")
                              (JStr "pw") "2024-05-01 08:00:00"))
               [PostRegister (JStr "Sari") (JStr "sari@example.com") (JStr "pw")
                             "2024-05-01 08:05:00";
                DeleteTransaction "1"])
          (JStr "dika@example.com") (JStr "pw")
    = (run (fst (register (empty_db true) (JStr "Dika") (JStr "dika@example.com")
                          (JStr "pw") "2024-05-01 08:00:00"))
           [PostRegister (JStr "Sari") (JStr "sari@example.com") (JStr "pw")
                         "2024-05-01 08:05:00";
            DeleteTransaction "1"],
       Json 200 (BUser u)) /\
    u_id u = 1.
Proof.
  destruct (register_then_login (empty_db true) _ (JStr "Dika") (JStr "dika@example.com")
              (JStr "pw") "2024-05-01 08:00:00" 1
              [PostRegister (JStr "Sari") (JStr "sari@example.com") (JStr "pw")
                            "2024-05-01 08:05:00";
               DeleteTransaction "1"] eq_refl)
    as (u & Hl & Hid & _).
  exists u. split; [exact Hl | exact Hid].
Defined.

(** *** The order of the listings *)

Section OrderByFacts.
Context {R : Type} (le : R -> R -> bool).
Hypothesis le_total : forall a b, le a b = true \/ le b a = true.
Hypothesis le_trans : forall a b c, le a b = true -> le b c = true -> le a c = true.

Lemma insert_desc_perm (r : R) (rows : list R) :
  Permutation (insert_desc le r rows) (r :: rows).
Proof.
  induction rows as [| x rows IH]; cbn [insert_desc]; [reflexivity |].
  destruct (le x r); [reflexivity |].
  rewrite IH. apply perm_swap.
Qed.

Lemma order_by_desc_perm (rows : list R) : Permutation (order_by_desc le rows) rows.
Proof.
  induction rows as [| x rows IH]; cbn; [constructor |].
  rewrite insert_desc_perm. constructor. exact IH.
Qed.

Lemma insert_desc_sorted (r : R) (rows : list R) :
  StronglySorted (fun a b => le b a = true) rows ->
  StronglySorted (fun a b => le b a = true) (insert_desc le r rows).
Proof.
  induction rows as [| x rows IH]; cbn [insert_desc]; intros Hs.
  - constructor; constructor.
  - inversion Hs as [| ? ? Hrest Hall]; subst.
    destruct (le x r) eqn:E.
    + constructor; [exact Hs |]. constructor; [exact E |].
      rewrite Forall_forall in *. intros y Hy. apply (le_trans y x r); [apply Hall, Hy | exact E].
    + constructor; [apply IH, Hrest |].
      eapply Permutation_Forall; [symmetry; apply insert_desc_perm |].
      constructor; [| exact Hall].
      destruct (le_total x r) as [H | H]; [rewrite H in E; discriminate E | exact H].
Qed.

Lemma order_by_desc_sorted (rows : list R) :
  StronglySorted (fun a b => le b a = true) (order_by_desc le rows).
Proof.
  induction rows as [| x rows IH]; cbn; [constructor |].
  apply insert_desc_sorted, IH.
Qed.

End OrderByFacts.

Lemma String_leb_trans (a b c : string) :
  String.leb a b = true -> String.leb b c = true -> String.leb a c = true.
Proof.
  unfold String.leb. intros Hab Hbc.
  destruct (String.compare a b) eqn:Eab; try discriminate Hab;
    destruct (String.compare b c) eqn:Ebc; try discriminate Hbc.
  - apply String.compare_eq_iff in Eab, Ebc. subst.
    destruct (String.compare c c) eqn:E; try reflexivity.
    pose proof (proj2 (OrderedTypeEx.String_as_OT.cmp_eq c c) eq_refl) as H.
    unfold OrderedTypeEx.String_as_OT.cmp in H. rewrite H in E. discriminate E.
  - apply String.compare_eq_iff in Eab. subst. rewrite Ebc. reflexivity.
  - apply String.compare_eq_iff in Ebc. subst. rewrite Eab. reflexivity.
  - apply OrderedTypeEx.String_as_OT.cmp_lt in Eab, Ebc.
    pose proof (OrderedTypeEx.String_as_OT.lt_trans _ _ _ Eab Ebc) as H.
    apply OrderedTypeEx.String_as_OT.cmp_lt in H.
    unfold OrderedTypeEx.String_as_OT.cmp in H. rewrite H. reflexivity.
Qed.

Lemma sql_le_total (a b : sqlval) : sql_le a b = true \/ sql_le b a = true.
Proof.
  destruct a as [x | x], b as [y | y]; cbn [sql_le]; auto.
  - destruct (Z.leb_spec x y); [left | right; apply Z.leb_le; lia]; reflexivity.
  - apply String.leb_total.
Qed.

Lemma sql_le_trans (a b c : sqlval) :
  sql_le a b = true -> sql_le b c = true -> sql_le a c = true.
Proof.
  destruct a as [x | x], b as [y | y], c as [z | z]; cbn [sql_le];
    try discriminate; try reflexivity.
  - rewrite !Z.leb_le. lia.
  - apply String_leb_trans.
Qed.

(** X8: for a plain user id, GET /api/transactions answers with exactly
    the rows of the user, each once, newest date first: no row of the
    answer is dated after a row that precedes it.  For a user id that
    carries [k] the rows are those whose user_id is [k]. *)
Theorem list_transactions_newest_first (db : Db) (userId : jsval)
  (rows : list transaction) :
  plain userId ->
  snd (list_transactions db userId) = Json 200 (BTransactions rows) ->
  Permutation rows (filter (owned (user_key userId)) (transactions db)) /\
  (forall k, carries userId k ->
     Permutation rows (filter (belongs_to k) (transactions db))) /\
  StronglySorted (fun a b => sql_le (t_date b) (t_date a) = true) rows.
Proof.
  intros _. unfold list_transactions, select_transactions.
  destruct (bind userId) as [b | e] eqn:Eb; [| discriminate].
  cbn [rbind snd]. intros H. injection H as <-.
  rewrite <- (bind_bound _ _ Eb).
  assert (Hp : Permutation
                 (order_by_desc (fun a b => sql_le (t_date a) (t_date b))
                    (filter (fun t => num_col_eq (t_user_id t) (bound userId))
                       (transactions db)))
                 (filter (owned (user_key userId)) (transactions db))).
  { rewrite order_by_desc_perm.
    erewrite filter_ext; [reflexivity |]. intros t. apply num_col_eq_owned. }
  split; [exact Hp |]. split.
  - intros k Hc. rewrite Hp.
    erewrite filter_ext; [reflexivity |]. intros t. apply owned_carries. exact Hc.
  - apply (order_by_desc_sorted (fun a b => sql_le (t_date a) (t_date b))).
    + intros x y. apply sql_le_total.
    + intros x y z. apply sql_le_trans.
Qed.

Lemma list_transactions_newest_first_witness :
  exists rows,
    snd (list_transactions
           (run after_income_A
              [PostTransactions (JNum 1) (JStr "expense") (JStr "Makan") (JNum 1000) JNull
                                (JStr "2024-05-09") JNull "2024-05-09 09:00:00";
               PostTransactions (JNum 1) (JStr "expense") (JStr "Bensin") (JNum 2000) JNull
                                (JStr "2024-05-05") JNull "2024-05-09 09:10:00"])
           (JStr "1"))
    = Json 200 (BTransactions rows) /\
    map t_id rows = [2; 3; 1] /\
    StronglySorted (fun a b => sql_le (t_date b) (t_date a) = true) rows.
Proof.
  eexists. split; [reflexivity |]. split; [reflexivity |].
  apply (list_transactions_newest_first
           (run after_income_A
              [PostTransactions (JNum 1) (JStr "expense") (JStr "Makan") (JNum 1000) JNull
                                (JStr "2024-05-09") JNull "2024-05-09 09:00:00";
               PostTransactions (JNum 1) (JStr "expense") (JStr "Bensin") (JNum 2000) JNull
                                (JStr "2024-05-05") JNull "2024-05-09 09:10:00"])
           (JStr "1")).
  - right. exists 1. split; [apply Z.leb_le; reflexivity | reflexivity].
  - reflexivity.
Defined.

(** X9: for a plain user id, GET /api/targets answers with exactly the
    targets of the user, each once, latest creation first.  For a user id
    that carries [k] the rows are those whose user_id is [k]. *)
Theorem list_targets_newest_first (db : Db) (userId : jsval) (rows : list target) :
  plain userId ->
  snd (list_targets db userId) = Json 200 (BTargets rows) ->
  Permutation rows
    (filter (fun g => match user_key userId with
                      | Some u => target_of_user u g
                      | None => false
                      end) (targets db)) /\
  (forall k, carries userId k ->
     Permutation rows (filter (target_belongs_to k) (targets db))) /\
  StronglySorted (fun a b => String.leb (g_created_at b) (g_created_at a) = true) rows.
Proof.
  intros _. unfold list_targets, select_targets.
  destruct (bind userId) as [b | e] eqn:Eb; [| discriminate].
  cbn [rbind snd]. intros H. injection H as <-.
  rewrite <- (bind_bound _ _ Eb).
  assert (Hp : Permutation
                 (order_by_desc (fun a b => String.leb (g_created_at a) (g_created_at b))
                    (filter (fun g => num_col_eq (g_user_id g) (bound userId))
                       (targets db)))
                 (filter (fun g => match user_key userId with
                                   | Some u => target_of_user u g
                                   | None => false
                                   end) (targets db))).
  { rewrite order_by_desc_perm.
    erewrite filter_ext; [reflexivity |]. intros g.
    unfold num_col_eq, user_key, target_of_user. destruct (bound userId); reflexivity. }
  split; [exact Hp |]. split.
  - intros k Hc. rewrite Hp.
    erewrite filter_ext; [reflexivity |]. intros g.
    unfold user_key. rewrite (carries_stored _ _ Hc).
    unfold target_of_user, target_belongs_to. destruct (g_user_id g); reflexivity.
  - apply (order_by_desc_sorted (fun a b => String.leb (g_created_at a) (g_created_at b))).
    + intros x y. apply String.leb_total.
    + intros x y z. apply String_leb_trans.
Qed.

Lemma list_targets_newest_first_witness :
  exists rows,
    snd (list_targets
           (run one_target_db
              [PostTargets (JNum 1) (JStr "Motor") (JNum 2000000) JNull JNull
                           "2024-05-02 10:00:00";
               PostTargets (JNum 1) (JStr "Sepeda") (JNum 300000) JNull JNull
                           "2024-05-03 10:00:00"])
           (JStr "1"))
    = Json 200 (BTargets rows) /\
    map g_id rows = [3; 2; 1] /\
    StronglySorted (fun a b => String.leb (g_created_at b) (g_created_at a) = true) rows.
Proof.
  eexists. split; [reflexivity |]. split; [reflexivity |].
  apply (list_targets_newest_first
           (run one_target_db
              [PostTargets (JNum 1) (JStr "Motor") (JNum 2000000) JNull JNull
                           "2024-05-02 10:00:00";
               PostTargets (JNum 1) (JStr "Sepeda") (JNum 300000) JNull JNull
                           "2024-05-03 10:00:00"])
           (JStr "1")).
  - right. exists 1. split; [apply Z.leb_le; reflexivity | reflexivity].
  - reflexivity.
Defined.

(** *** The id in the path of a delete *)

(** X10: the client deletes with the id that the create answered, written
    into the path: on a store with proper rowids this removes exactly the
    created row, so the transactions are those before the create. *)
Theorem create_then_delete_restores_rows (db db1 : Db)
  (userId type category amount description date targetId : jsval) (now : string) (id : Z) :
  wf_ids db ->
  create_transaction db userId type category amount description date targetId now
  = (db1, Json 200 (BId id)) ->
  snd (delete_transaction db1 (String_of id)) = Json 200 BSuccess /\
  transactions (fst (delete_transaction db1 (String_of id))) = transactions db.
Proof.
  intros (_ & _ & (_ & _ & Hb)) Hc. split; [reflexivity |].
  destruct (create_transaction_effect db userId type category amount description date
              targetId now)
    as [[Ha _] | (t & f & Hs & _ & _ & _ & _ & _ & Hts & _ & _ & Hid & _)];
    rewrite Hc in *; cbn [fst snd] in *; [discriminate Ha |].
  injection Hs as ->.
  unfold delete_transaction, delete_transaction_row.
  cbn [bind rbind fst transactions with_transactions].
  rewrite Hts, filter_app. cbn [filter].
  rewrite !num_col_eq_path, int_literal_String_of, Z.eqb_refl. cbn [negb].
  rewrite app_nil_r. apply filter_all. intros t0 Ht0.
  rewrite num_col_eq_path, int_literal_String_of.
  apply negb_true_iff, Z.eqb_neq.
  specialize (Hb (t_id t0) (in_map t_id _ _ Ht0)). lia.
Qed.

Lemma create_then_delete_restores_rows_witness :
  transactions (fst (delete_transaction after_income_A (String_of 1)))
  = transactions one_target_db.
Proof.
  apply (create_then_delete_restores_rows one_target_db after_income_A (JNum 1)
           (JStr "income") (JStr "Gaji") (JNum 400000) JNull (JStr "2024-05-02") (JNum 1)
           "2024-05-02 09:00:00" 1).
  - assert (H0 : ids_ok [] 0) by (split; [lia | split; [constructor | intros k []]]).
    assert (H1 : ids_ok [1] 1).
    { split; [lia |]. split; [repeat constructor; intros [] | intros k [<- | []]; lia]. }
    split; [exact H1 |]. split; [exact H1 | exact H0].
  - reflexivity.
Defined.

(** X11: DELETE and PATCH can be repeated: the second identical request
    answers success again and leaves the store as the first one left it. *)
Theorem delete_and_patch_are_idempotent (db : Db) (id : string)
  (saved_amount status : jsval) :
  delete_transaction (fst (delete_transaction db id)) id
  = (fst (delete_transaction db id), Json 200 BSuccess) /\
  update_target (fst (update_target db id saved_amount status)) id saved_amount status
  = (fst (update_target db id saved_amount status), Json 200 BSuccess).
Proof.
  split.
  - unfold delete_transaction, delete_transaction_row.
    cbn [bind rbind fst transactions transactions_seq with_transactions].
    f_equal. unfold with_transactions.
    cbn [users users_seq targets targets_seq foreign_keys]. f_equal.
    apply filter_all. intros t Ht. apply filter_In in Ht. tauto.
  - destruct (update_target_effect db id saved_amount status) as [_ ->]. cbn [fst].
    destruct (update_target_effect
                (with_targets db (map (patched id saved_amount status) (targets db))
                              (targets_seq db)) id saved_amount status) as [_ ->].
    cbn [fst targets targets_seq with_targets users users_seq transactions
         transactions_seq foreign_keys].
    f_equal. unfold with_targets. cbn [users users_seq transactions transactions_seq
                                       foreign_keys targets targets_seq]. f_equal.
    rewrite map_map. apply map_ext. intros g.
    unfold patched at 1.
    assert (Hn : names_target id (patched id saved_amount status g) = names_target id g).
    { unfold patched. destruct (names_target id g) eqn:E; [| exact E].
      unfold names_target in *. cbn [g_id]. exact E. }
    rewrite Hn. unfold patched.
    destruct (names_target id g); [| reflexivity].
    cbn [g_id g_user_id g_name g_amount g_saved_amount g_deadline g_description
         g_status g_created_at].
    destruct (is_defined saved_amount), (is_defined status); reflexivity.
Qed.

(** *** Creates and the statistics *)

Lemma sql_eq_refl (v : sqlval) : sql_eq v v = true.
Proof. destruct v; cbn; [apply Z.eqb_refl | apply String.eqb_refl]. Qed.

Lemma user_total_snoc (k : option sqlval) (ty : string) (p : transaction -> bool)
  (ts : list transaction) (t : transaction) :
  user_total k ty p (ts ++ [t])
  = user_total k ty p ts
    + (if owned k t && is_type ty t && p t then to_num (t_amount t) else 0).
Proof. unfold user_total. rewrite total_of_app. cbn [total_of]. lia. Qed.

(** X12: a create that went through moves the statistics of its user by
    its amount: an income raises totalIncome and the balance, an expense
    raises totalExpense and lowers the balance, and nothing else moves.
    The ids and the amount of the create and the user id of the query are
    plain, and the amounts of the store add without rounding. *)
Theorem create_moves_the_balance (db db1 : Db)
  (userId type category amount description date targetId q : jsval)
  (now : string) (at_ : Date) (id : Z) :
  plain userId -> plain targetId -> plain amount -> plain q ->
  exact_amounts (transactions db1) ->
  create_transaction db userId type category amount description date targetId now
  = (db1, Json 200 (BId id)) ->
  user_key q = user_key userId ->
  exists s s' a,
    get_stats db q at_ = (db, Json 200 (BStats s)) /\
    get_stats db1 q at_ = (db1, Json 200 (BStats s')) /\
    option_map to_num (bound amount) = Some a /\
    ((type = JStr "income" /\ totalIncome s' = totalIncome s + a /\
      totalExpense s' = totalExpense s /\ balance s' = balance s + a) \/
     (type = JStr "expense" /\ totalExpense s' = totalExpense s + a /\
      totalIncome s' = totalIncome s /\ balance s' = balance s - a)).
Proof.
  intros _ _ _ _ _ Hc Hk.
  pose proof (create_transaction_rows db userId type category amount description date
                targetId now) as Hr.
  pose proof (create_transaction_effect db userId type category amount description date
                targetId now) as He.
  cbv zeta in Hr, He. rewrite Hc in Hr, He. cbn [fst snd] in Hr, He.
  destruct Hr as [[Ha _] | (_ & Hty & _ & t & raw & Hts & Htype & Hraw & Hamt & _)];
    [discriminate Ha |].
  destruct He as [[Ha _] | (t' & f & _ & _ & _ & _ & _ & _ & Hts' & _ & _ & _ & _ & Hu & _)];
    [discriminate Ha |].
  assert (t' = t).
  { rewrite Hts in Hts'. apply app_inv_head in Hts'. congruence. }
  subst t'.
  assert (Hown : owned (user_key q) t = true).
  { rewrite Hk, <- Hu. cbn [owned]. apply sql_eq_refl. }
  exists (mkStats
     (user_total (user_key q) "income" any_date (transactions db)
      - user_total (user_key q) "expense" any_date (transactions db))
     (user_total (user_key q) "income" (dated_from (monthStart at_)) (transactions db))
     (user_total (user_key q) "expense" (dated_from (monthStart at_)) (transactions db))
     (user_total (user_key q) "income" any_date (transactions db))
     (user_total (user_key q) "expense" any_date (transactions db))).
  eexists. exists (to_num raw).
  split; [apply (get_stats_answer db q at_) |].
  split; [apply (get_stats_answer db1 q at_) |].
  split; [rewrite Hraw; reflexivity |].
  cbn [totalIncome totalExpense balance]. rewrite Hts, !user_total_snoc, Hown.
  rewrite Hamt, to_num_numeric_affinity. unfold is_type, any_date.
  destruct Hty as [-> | ->]; cbn [bound bind option_map text_affinity] in Htype;
    injection Htype as ->; [left | right]; cbn; repeat split; lia.
Qed.

Lemma create_moves_the_balance_witness :
  exists s s' a,
    get_stats one_target_db (JStr "1") (mkDate 2024 4 15)
    = (one_target_db, Json 200 (BStats s)) /\
    get_stats after_income_A (JStr "1") (mkDate 2024 4 15)
    = (after_income_A, Json 200 (BStats s')) /\
    option_map to_num (bound (JNum 400000)) = Some a /\
    ((JStr "income" = JStr "income" /\ totalIncome s' = totalIncome s + a /\
      totalExpense s' = totalExpense s /\ balance s' = balance s + a) \/
     (JStr "income" = JStr "expense" /\ totalExpense s' = totalExpense s + a /\
      totalIncome s' = totalIncome s /\ balance s' = balance s - a)).
Proof.
  apply (create_moves_the_balance one_target_db after_income_A (JNum 1) (JStr "income")
           (JStr "Gaji") (JNum 400000) JNull (JStr "2024-05-02") (JNum 1) (JStr "1")
           "2024-05-02 09:00:00" (mkDate 2024 4 15) 1).
  - unfold plain; apply Z.leb_le; reflexivity.
  - unfold plain; apply Z.leb_le; reflexivity.
  - unfold plain; apply Z.leb_le; reflexivity.
  - right. exists 1. split; [apply Z.leb_le; reflexivity | reflexivity].
  - split; [intros t [<- | []]; eexists; reflexivity | apply Z.leb_le; reflexivity].
  - reflexivity.
  - reflexivity.
Defined.

(** X13: for a plain user id and amounts that add without rounding, when
    no amount of the user is negative, the sums of the month are between 0
    and the sums over all time. *)
Theorem monthly_sums_within_totals (db : Db) (q : jsval) (at_ : Date) :
  plain q -> exact_amounts (transactions db) ->
  (forall t, In t (transactions db) -> owned (user_key q) t = true ->
     0 <= to_num (t_amount t)) ->
  exists s,
    get_stats db q at_ = (db, Json 200 (BStats s)) /\
    0 <= monthlyIncome s <= totalIncome s /\
    0 <= monthlyExpense s <= totalExpense s.
Proof.
  intros _ _ Hpos. eexists. split; [apply (get_stats_answer db q at_) |].
  cbn [monthlyIncome monthlyExpense totalIncome totalExpense].
  assert (H : forall ty p,
    0 <= user_total (user_key q) ty p (transactions db)
      <= user_total (user_key q) ty any_date (transactions db)).
  { intros ty p. unfold user_total.
    induction (transactions db) as [| t ts IH]; cbn [total_of]; [lia |].
    assert (IH' : 0 <= total_of (fun t0 => owned (user_key q) t0 && is_type ty t0 && p t0) ts
                  <= total_of (fun t0 => owned (user_key q) t0 && is_type ty t0
                                         && any_date t0) ts)
      by (apply IH; intros t0 Ht0; apply Hpos; right; exact Ht0).
    specialize (Hpos t (or_introl eq_refl)).
    unfold any_date at 1. rewrite andb_true_r.
    destruct (owned (user_key q) t); cbn [andb]; [| lia].
    specialize (Hpos eq_refl).
    destruct (is_type ty t); cbn [andb]; [| lia]. destruct (p t); lia. }
  split; apply H.
Qed.

Lemma monthly_sums_within_totals_witness :
  exists s,
    get_stats after_income_A (JStr "1") (mkDate 2024 5 1)
    = (after_income_A, Json 200 (BStats s)) /\
    0 <= monthlyIncome s <= totalIncome s /\
    0 <= monthlyExpense s <= totalExpense s.
Proof.
  apply monthly_sums_within_totals.
  - right. exists 1. split; [apply Z.leb_le; reflexivity | reflexivity].
  - split; [intros t [<- | []]; eexists; reflexivity | apply Z.leb_le; reflexivity].
  - intros t [<- | []] _. cbn. lia.
Defined.

(** *** Fresh ids and listed rows *)

Lemma serve_counters_grow (db : Db) (req : request) :
  transactions_seq db <= transactions_seq (fst (serve db req)) /\
  targets_seq db <= targets_seq (fst (serve db req)) /\
  users_seq db <= users_seq (fst (serve db req)).
Proof.
  pose proof (reads_keep_the_store db req) as Hread.
  destruct req; try (rewrite Hread; lia); clear Hread; cbn [serve].
  - destruct (register_effect db name email password now)
      as [[_ ->] | (u & _ & -> & _)]; [lia |].
    cbn [fst users_seq targets_seq transactions_seq with_users]. lia.
  - destruct (create_transaction_effect db userId type category amount description date
                targetId now)
      as [[_ ->] | (t & f & _ & _ & _ & -> & _ & -> & _ & -> & _)]; lia.
  - unfold delete_transaction, delete_transaction_row.
    cbn [bind rbind fst users_seq targets_seq transactions_seq with_transactions]. lia.
  - destruct (create_target_effect db userId name amount deadline description now)
      as [[_ ->] | (g & _ & -> & _)]; [lia |].
    cbn [fst users_seq targets_seq transactions_seq with_targets]. lia.
  - destruct (update_target_effect db id saved_amount status) as [_ ->].
    cbn [fst users_seq targets_seq transactions_seq with_targets]. lia.
Qed.

Lemma run_counters_grow (reqs : list request) : forall db,
  transactions_seq db <= transactions_seq (run db reqs) /\
  targets_seq db <= targets_seq (run db reqs).
Proof.
  induction reqs as [| req reqs IH]; intros db; [cbn; lia |].
  destruct (serve_counters_grow db req) as (H1 & H2 & _).
  destruct (IH (fst (serve db req))) as (H3 & H4).
  unfold run in *. cbn [fold_left]. lia.
Qed.

(** X14: ids are never handed out twice: whatever was served in between,
    deletes included, the id that a create answers is above the id of
    every transaction the store ever held, and the same holds for the
    targets. *)
Theorem ids_are_never_reused (db : Db) (reqs : list request) :
  wf_ids db ->
  (forall userId type category amount description date targetId now db1 id,
     create_transaction (run db reqs) userId type category amount description date
                        targetId now
     = (db1, Json 200 (BId id)) ->
     forall t, In t (transactions db) -> t_id t < id) /\
  (forall userId name amount deadline description now db1 id,
     create_target (run db reqs) userId name amount deadline description now
     = (db1, Json 200 (BId id)) ->
     forall g, In g (targets db) -> g_id g < id).
Proof.
  intros (_ & (_ & _ & Hg) & (_ & _ & Ht)).
  destruct (run_counters_grow reqs db) as (Hts & Hgs).
  split.
  - intros userId type category amount description date targetId now db1 id Hc t Hin.
    destruct (create_transaction_effect (run db reqs) userId type category amount
                description date targetId now)
      as [[Ha _] | (t' & f & Hs & _ & _ & _ & _ & _ & _ & _ & _ & Hid & _)];
      rewrite Hc in *; cbn [fst snd] in *; [discriminate Ha |].
    injection Hs as ->. specialize (Ht _ (in_map t_id _ _ Hin)). lia.
  - intros userId name amount deadline description now db1 id Hc g Hin.
    destruct (create_target_effect (run db reqs) userId name amount deadline description now)
      as [[Ha _] | (g' & Hs & _ & Hid & _)];
      rewrite Hc in *; cbn [fst snd] in *; [discriminate Ha |].
    injection Hs as ->. specialize (Hg _ (in_map g_id _ _ Hin)). lia.
Qed.

Lemma ids_are_never_reused_witness :
  Forall (fun t => t_id t < 2) (transactions after_income_A).
Proof.
  assert (H1 : ids_ok [1] 1).
  { split; [lia |]. split; [repeat constructor; intros [] | intros k [<- | []]; lia]. }
  apply Forall_forall.
  apply (proj1 (ids_are_never_reused after_income_A [DeleteTransaction "1"]
                  (conj H1 (conj H1 H1)))
           (JNum 1) (JStr "expense") (JStr "Makan") (JNum 1000) JNull (JStr "2024-05-09")
           JNull "2024-05-09 09:00:00"
           (fst (create_transaction (run after_income_A [DeleteTransaction "1"])
                   (JNum 1) (JStr "expense") (JStr "Makan") (JNum 1000) JNull
                   (JStr "2024-05-09") JNull "2024-05-09 09:00:00")) 2).
  reflexivity.
Defined.

(** X15: what was created is listed: the transaction that a create answered
    with is among the rows of GET /api/transactions for its user. *)
Theorem created_transaction_is_listed (db db1 : Db)
  (userId type category amount description date targetId q : jsval) (now : string) (id : Z) :
  create_transaction db userId type category amount description date targetId now
  = (db1, Json 200 (BId id)) ->
  is_defined q = true -> user_key q = user_key userId ->
  exists rows t,
    list_transactions db1 q = (db1, Json 200 (BTransactions rows)) /\
    In t rows /\ t_id t = id /\ Some (t_user_id t) = user_key userId.
Proof.
  intros Hc Hq Hk.
  destruct (create_transaction_effect db userId type category amount description date
              targetId now)
    as [[Ha _] | (t & f & Hs & _ & _ & _ & _ & _ & Hts & _ & _ & _ & _ & Hu & _)];
    rewrite Hc in *; cbn [fst snd] in *; [discriminate Ha |].
  injection Hs as ->.
  unfold list_transactions, select_transactions.
  rewrite (bind_defined _ Hq). cbn [rbind].
  eexists. exists t. split; [reflexivity |]. split; [| split; [reflexivity | exact Hu]].
  eapply Permutation_in; [symmetry; apply order_by_desc_perm |].
  apply filter_In. split; [rewrite Hts; apply in_or_app; right; left; reflexivity |].
  rewrite num_col_eq_owned, Hk, <- Hu. cbn [owned]. apply sql_eq_refl.
Qed.

Lemma created_transaction_is_listed_witness :
  exists rows t,
    list_transactions after_income_A (JStr "1")
    = (after_income_A, Json 200 (BTransactions rows)) /\
    In t rows /\ t_id t = 1 /\ Some (t_user_id t) = user_key (JNum 1).
Proof.
  exact (created_transaction_is_listed one_target_db after_income_A (JNum 1) (JStr "income")
           (JStr "Gaji") (JNum 400000) JNull (JStr "2024-05-02") (JNum 1) (JStr "1")
           "2024-05-02 09:00:00" 1 eq_refl eq_refl eq_refl).
Defined.

(** X16: a new target is listed for its user, with nothing saved and the
    status active. *)
Theorem created_target_is_listed (db db1 : Db)
  (userId name amount deadline description q : jsval) (now : string) (id : Z) :
  create_target db userId name amount deadline description now
  = (db1, Json 200 (BId id)) ->
  is_defined q = true -> user_key q = user_key userId ->
  exists rows g,
    list_targets db1 q = (db1, Json 200 (BTargets rows)) /\
    In g rows /\ g_id g = id /\
    g_saved_amount g = Some (SInt 0) /\ g_status g = Some "active".
Proof.
  intros Hc Hq Hk.
  destruct (create_target_effect db userId name amount deadline description now)
    as [[Ha _] | (g & Hs & Hdb & _ & Hu & Hsaved & Hstatus & _)];
    rewrite Hc in *; cbn [fst snd] in *; [discriminate Ha |].
  injection Hs as ->. subst db1.
  unfold list_targets, select_targets.
  rewrite (bind_defined _ Hq). cbn [rbind].
  eexists. exists g. split; [reflexivity |].
  split; [| split; [reflexivity | split; assumption]].
  eapply Permutation_in; [symmetry; apply order_by_desc_perm |].
  apply filter_In. cbn [targets with_targets].
  split; [apply in_or_app; right; left; reflexivity |].
  unfold num_col_eq, user_key in *. rewrite <- Hk in Hu.
  destruct (bound q) as [v |]; [| discriminate Hu].
  cbn [option_map] in Hu. injection Hu as Hu. cbn [opt_test]. rewrite <- Hu.
  apply sql_eq_refl.
Qed.

Lemma created_target_is_listed_witness :
  exists rows g,
    list_targets one_target_db (JStr "1") = (one_target_db, Json 200 (BTargets rows)) /\
    In g rows /\ g_id g = 1 /\
    g_saved_amount g = Some (SInt 0) /\ g_status g = Some "active".
Proof.
  exact (created_target_is_listed
           (fst (register (empty_db true) (JStr "Dika") (JStr "dika@example.com") (JStr "pw")
                          "2024-05-01 08:00:00"))
           one_target_db (JNum 1) (JStr "Laptop") (JNum 1000000)
           JNull JNull (JStr "1") "2024-05-01 08:01:00" 1 eq_refl eq_refl eq_refl).
Defined.

(** X17: a PATCH whose path carries the decimal text of an integer,
    with a plain saved_amount and a status that is a string, null or
    absent, answers success and changes nothing when the body is empty or
    when no target has that id. *)
Theorem patch_without_effect (db : Db) (k : Z) (saved_amount status : jsval) :
  plain saved_amount -> text_field status ->
  (is_defined saved_amount = false /\ is_defined status = false) \/
  existsb (fun g => g_id g =? k) (targets db) = false ->
  update_target db (String_of k) saved_amount status = (db, Json 200 BSuccess).
Proof.
  intros _ _ H.
  destruct (update_target_effect db (String_of k) saved_amount status) as [_ ->].
  f_equal. transitivity (with_targets db (targets db) (targets_seq db));
    [| apply with_targets_same].
  f_equal. transitivity (map (fun g => g) (targets db)); [| apply map_id].
  apply map_ext_in. intros g Hg.
  unfold patched, names_target. rewrite int_literal_String_of.
  destruct (k =? g_id g) eqn:E; [| reflexivity].
  destruct H as [[-> ->] | H]; [destruct g; reflexivity |].
  assert (Hex : existsb (fun g0 => g_id g0 =? k) (targets db) = true)
    by (apply existsb_exists; exists g; split; [exact Hg | rewrite Z.eqb_sym; exact E]).
  rewrite H in Hex. discriminate Hex.
Qed.

Lemma patch_without_effect_witness :
  update_target one_target_db (String_of 7) (JNum 5) (JStr "completed")
  = (one_target_db, Json 200 BSuccess).
Proof.
  apply patch_without_effect.
  - unfold plain; apply Z.leb_le; reflexivity.
  - exact I.
  - right. reflexivity.
Defined.

(** *** The first day of the month and the calendar *)

Lemma forallb_range (P : Z -> bool) (n : nat) : forall a,
  forallb P (count_from a n) = true ->
  forall z, a <= z < a + Z.of_nat n -> P z = true.
Proof.
  induction n as [| n IH]; intros a H z Hz; [lia |].
  cbn [count_from forallb] in H. apply andb_true_iff in H as [Ha Hrest].
  destruct (Z.eq_dec z a) as [-> | Hne]; [exact Ha |].
  apply (IH (a + 1) Hrest). lia.
Qed.

Lemma String_compare_refl (s : string) : String.compare s s = Eq.
Proof. apply (proj2 (OrderedTypeEx.String_as_OT.cmp_eq s s)). reflexivity. Qed.

Lemma String_compare_lt_trans (a b c : string) :
  String.compare a b = Lt -> String.compare b c = Lt -> String.compare a c = Lt.
Proof.
  intros Hab Hbc.
  apply OrderedTypeEx.String_as_OT.cmp_lt in Hab, Hbc.
  apply OrderedTypeEx.String_as_OT.cmp_lt.
  exact (OrderedTypeEx.String_as_OT.lt_trans _ _ _ Hab Hbc).
Qed.

(** Texts with heads of the same length compare by the heads first. *)
Lemma String_compare_app (p1 p2 s1 s2 : string) :
  String.length p1 = String.length p2 ->
  String.compare (p1 ++ s1) (p2 ++ s2)
  = match String.compare p1 p2 with
    | Eq => String.compare s1 s2
    | c => c
    end.
Proof.
  revert p2. induction p1 as [| c1 p1 IH]; intros [| c2 p2] Hl; try discriminate Hl.
  - reflexivity.
  - cbn [String.append String.compare]. destruct (Ascii.compare c1 c2); try reflexivity.
    apply IH. cbn in Hl. lia.
Qed.

Lemma String_append_assoc (a b c : string) : ((a ++ b) ++ c = a ++ (b ++ c))%string.
Proof. induction a as [| x a IH]; cbn; [reflexivity | rewrite IH; reflexivity]. Qed.

(** The years from 1000 to 9999 are written with four characters, in
    increasing order. *)
Lemma year_text_length (y : Z) :
  1000 <= y <= 9999 -> String.length (String_of y) = 4%nat.
Proof.
  intros Hy.
  apply Nat.eqb_eq.
  apply (forallb_range (fun z => Nat.eqb (String.length (String_of z)) 4)
           (Z.to_nat 9000) 1000); [vm_compute; reflexivity | lia].
Qed.

Lemma year_text_next (y : Z) :
  1000 <= y < 9999 -> String.compare (String_of y) (String_of (y + 1)) = Lt.
Proof.
  intros Hy.
  assert (H : String.ltb (String_of y) (String_of (y + 1)) = true).
  { apply (forallb_range (fun z => String.ltb (String_of z) (String_of (z + 1)))
             (Z.to_nat 8999) 1000); [vm_compute; reflexivity | lia]. }
  unfold String.ltb in H. destruct (String.compare _ _); [discriminate | reflexivity | discriminate].
Qed.

Lemma year_text_increasing (y1 y2 : Z) :
  1000 <= y1 -> y1 < y2 -> y2 <= 9999 ->
  String.compare (String_of y1) (String_of y2) = Lt.
Proof.
  intros H1 H12 H2.
  assert (H : forall k : nat, y1 + 1 + Z.of_nat k <= 9999 ->
            String.compare (String_of y1) (String_of (y1 + 1 + Z.of_nat k)) = Lt).
  { induction k as [| k IH]; intros Hk.
    - replace (y1 + 1 + Z.of_nat 0) with (y1 + 1) by lia. apply year_text_next. lia.
    - apply (String_compare_lt_trans _ (String_of (y1 + 1 + Z.of_nat k))); [apply IH; lia |].
      replace (y1 + 1 + Z.of_nat (S k)) with (y1 + 1 + Z.of_nat k + 1) by lia.
      apply year_text_next. lia. }
  specialize (H (Z.to_nat (y2 - y1 - 1))).
  replace (y1 + 1 + Z.of_nat (Z.to_nat (y2 - y1 - 1))) with y2 in H by lia.
  apply H. lia.
Qed.

(** The months are written with two characters, in increasing order. *)
Lemma month_text (m1 m2 : Z) :
  0 <= m1 <= 11 -> 0 <= m2 <= 11 ->
  String.length (padStart2 (String_of (m1 + 1))) = 2%nat /\
  String.compare (padStart2 (String_of (m1 + 1))) (padStart2 (String_of (m2 + 1)))
  = (m1 ?= m2).
Proof.
  intros H1 H2.
  assert (H : (Nat.eqb (String.length (padStart2 (String_of (m1 + 1)))) 2 &&
               forallb (fun z =>
                 match String.compare (padStart2 (String_of (m1 + 1)))
                                      (padStart2 (String_of (z + 1))), m1 ?= z with
                 | Eq, Eq | Lt, Lt | Gt, Gt => true
                 | _, _ => false
                 end) (count_from 0 12))%bool = true).
  { apply (forallb_range
             (fun a => (Nat.eqb (String.length (padStart2 (String_of (a + 1)))) 2 &&
                forallb (fun z =>
                  match String.compare (padStart2 (String_of (a + 1)))
                                       (padStart2 (String_of (z + 1))), a ?= z with
                  | Eq, Eq | Lt, Lt | Gt, Gt => true
                  | _, _ => false
                  end) (count_from 0 12))%bool) 12 0);
      [vm_compute; reflexivity | lia]. }
  apply andb_true_iff in H as [Hl Hc]. split; [apply Nat.eqb_eq; exact Hl |].
  pose proof (forallb_range _ 12 0 Hc m2 ltac:(lia)) as Hm. cbv beta in Hm.
  destruct (String.compare _ _), (m1 ?= m2); try reflexivity; discriminate Hm.
Qed.

(** The first of the month is not after any day of the month. *)
Lemma first_day_text (d : Z) :
  1 <= d <= 31 -> String.leb "-01" ("-" ++ padStart2 (String_of d)) = true.
Proof.
  intros Hd.
  apply (forallb_range (fun z => String.leb "-01" ("-" ++ padStart2 (String_of z))) 31 1);
    [vm_compute; reflexivity | lia].
Qed.

(** X18: the monthly filter follows the calendar: a transaction dated, in
    the format yyyy-MM-dd of the client, on a day of the years 1000 to
    9999 passes [date >= monthStart] exactly when its month is the month of
    the query or a later one. *)
Theorem month_window_follows_the_calendar (day at_ : Date) (t : transaction) :
  in_calendar day -> in_calendar at_ ->
  t_date t = SText (today day) ->
  dated_from (monthStart at_) t = (month_index at_ <=? month_index day).
Proof.
  intros (Hy & Hm & Hd) (Hy' & Hm' & _) Ht.
  unfold dated_from, sql_ge. rewrite Ht. cbn [sql_le].
  unfold monthStart, today, month_index, String.leb.
  set (Y := String_of (getFullYear day)). set (Y' := String_of (getFullYear at_)).
  set (M := padStart2 (String_of (getMonth day + 1))).
  set (M' := padStart2 (String_of (getMonth at_ + 1))).
  rewrite (String_compare_app Y' Y)
    by (unfold Y, Y'; rewrite !year_text_length; [reflexivity | lia | lia]).
  destruct (month_text (getMonth at_) (getMonth day) Hm' Hm) as [Hl' Hc].
  destruct (month_text (getMonth day) (getMonth at_) Hm Hm') as [Hl _].
  fold M M' in Hl, Hl', Hc.
  destruct (Z.compare_spec (getFullYear at_) (getFullYear day)) as [Ey | Ly | Gy].
  - unfold Y, Y'. rewrite Ey, String_compare_refl.
    cbn [String.append String.compare]. change (Ascii.compare "-" "-") with Eq. cbv iota.
    rewrite (String_compare_app M' M) by congruence. rewrite Hc.
    destruct (Z.compare_spec (getMonth at_) (getMonth day)) as [Em | Lm | Gm].
    + rewrite Em. pose proof (first_day_text (getDate day) Hd) as Hf.
      unfold String.leb in Hf. rewrite Z.leb_refl.
      destruct (String.compare "-01" _); [reflexivity | reflexivity | discriminate Hf].
    + symmetry. apply Z.leb_le. lia.
    + symmetry. apply Z.leb_gt. lia.
  - unfold Y, Y'. rewrite (year_text_increasing _ _ (proj1 Hy') Ly (proj2 Hy)).
    symmetry. apply Z.leb_le. lia.
  - unfold Y, Y'.
    rewrite String.compare_antisym,
      (year_text_increasing _ _ (proj1 Hy) Gy (proj2 Hy')). cbn [CompOpp].
    symmetry. apply Z.leb_gt. lia.
Qed.

Lemma month_window_follows_the_calendar_witness :
  dated_from (monthStart (mkDate 2024 4 15))
    (mkTransaction 1 (SInt 1) "income" "Gaji" (SInt 50) None (SText "2024-04-30") None
                   "2024-05-02 09:00:00")
  = false.
Proof.
  apply (month_window_follows_the_calendar (mkDate 2024 3 30) (mkDate 2024 4 15)).
  - unfold in_calendar. cbn. lia.
  - unfold in_calendar. cbn. lia.
  - reflexivity.
Defined.

(** *** The dashboard *)

Lemma StronglySorted_app_cross {A} (R : A -> A -> Prop) (xs ys : list A) :
  StronglySorted R (xs ++ ys) -> forall a b, In a xs -> In b ys -> R a b.
Proof.
  induction xs as [| x xs IH]; cbn; intros Hs a b Ha Hb; [contradiction |].
  inversion Hs as [| ? ? Hrest Hall]; subst.
  destruct Ha as [<- | Ha]; [| exact (IH Hrest a b Ha Hb)].
  rewrite Forall_forall in Hall. apply Hall. apply in_or_app. right. exact Hb.
Qed.

(** X19: for a plain user id, the dashboard keeps the first five rows of
    the listing (all of them when there are fewer), and no row that it
    leaves out is dated after a row that it shows. *)
Theorem dashboard_shows_the_newest (db : Db) (userId : jsval) (rows : list transaction) :
  plain userId ->
  snd (list_transactions db userId) = Json 200 (BTransactions rows) ->
  rows = (recentTransactions rows ++ skipn 5 rows)%list /\
  List.length (recentTransactions rows) = Nat.min 5 (List.length rows) /\
  forall shown left_out,
    In shown (recentTransactions rows) -> In left_out (skipn 5 rows) ->
    sql_le (t_date left_out) (t_date shown) = true.
Proof.
  intros _. unfold list_transactions, select_transactions, recentTransactions.
  destruct (bind userId) as [b | e] eqn:Eb; [| discriminate].
  cbn [rbind snd]. intros H. injection H as <-.
  split; [symmetry; apply firstn_skipn |].
  split; [apply length_firstn |].
  intros shown left_out Hs Hl.
  set (rows := order_by_desc _ _) in *.
  assert (Hsorted : StronglySorted (fun a b => sql_le (t_date b) (t_date a) = true) rows).
  { apply (order_by_desc_sorted (fun a b => sql_le (t_date a) (t_date b))).
    - intros x y. apply sql_le_total.
    - intros x y z. apply sql_le_trans. }
  rewrite <- (firstn_skipn 5 rows) in Hsorted.
  exact (StronglySorted_app_cross _ _ _ Hsorted shown left_out Hs Hl).
Qed.

Lemma dashboard_shows_the_newest_witness :
  exists rows,
    snd (list_transactions seven_expenses_db (JStr "1")) = Json 200 (BTransactions rows) /\
    map t_id (recentTransactions rows) = [7; 6; 5; 4; 3] /\
    map t_id (skipn 5 rows) = [2; 1] /\
    forall shown left_out,
      In shown (recentTransactions rows) -> In left_out (skipn 5 rows) ->
      sql_le (t_date left_out) (t_date shown) = true.
Proof.
  eexists. split; [reflexivity |]. split; [reflexivity |]. split; [reflexivity |].
  apply (dashboard_shows_the_newest seven_expenses_db (JStr "1")).
  - right. exists 1. split; [apply Z.leb_le; reflexivity | reflexivity].
  - reflexivity.
Defined.
